(** * Histogram comparison utilities of the HSCP analysis scripts

    A shallow embedding of the two plotting utilities of the repository,
    [ratio.py] (the ratio builder) and [2DHistogram.py] (the grid builder),
    and of the part of the plotting library they call.

    Conventions of the embedding:
    - bin contents are exact rationals ([Qc]); the plotting library keeps
      them in binary floating point, whose rounding is not modelled;
    - bin numbers are naturals: every bin number the scripts use comes out
      of [range(1, n + 1)] or [enumerate];
    - console output and saved files are recorded as a trace of events;
      [sys.exit] and Python exceptions are outcomes of a computation. *)

From Stdlib Require Import QArith Qcanon Ascii String.
From stdpp Require Import base list gmap strings pretty.

Local Open Scope string_scope.
Local Open Scope list_scope.
Local Open Scope nat_scope.

(** ** Python string methods used by the scripts *)

Module PyStr.

(** [s.split(sep)] for a one-character separator. *)
Fixpoint split (sep : ascii) (s : string) : list string :=
  match s with
  | EmptyString => [EmptyString]
  | String c s' =>
      if Ascii.eqb c sep then EmptyString :: split sep s'
      else match split sep s' with
           | [] => [String c EmptyString]
           | w :: ws => String c w :: ws
           end
  end.

(** Whitespace as [str.strip] sees it on ASCII text. *)
Definition is_space (c : ascii) : bool :=
  let n := nat_of_ascii c in
  (n =? 32)%nat || ((9 <=? n)%nat && (n <=? 13)%nat)
  || ((28 <=? n)%nat && (n <=? 31)%nat).

Fixpoint lstrip (s : string) : string :=
  match s with
  | EmptyString => EmptyString
  | String c s' => if is_space c then lstrip s' else s
  end.

Fixpoint rev_onto (s acc : string) : string :=
  match s with
  | EmptyString => acc
  | String c s' => rev_onto s' (String c acc)
  end.

Definition rev (s : string) : string := rev_onto s EmptyString.

Definition rstrip (s : string) : string := rev (lstrip (rev s)).

(** [s.strip()] *)
Definition strip (s : string) : string := rstrip (lstrip s).

(** [s.replace(old, new)] for a non-empty [old]: occurrences are replaced
    from left to right and do not overlap.  [skip] counts the characters of
    a matched occurrence that are still to be dropped. *)
Fixpoint replace_from (old new : string) (skip : nat) (s : string) : string :=
  match s with
  | EmptyString => EmptyString
  | String c s' =>
      match skip with
      | S k => replace_from old new k s'
      | O =>
          if String.prefix old s
          then new +:+ replace_from old new (String.length old - 1) s'
          else String c (replace_from old new 0 s')
      end
  end.

Definition replace (old new s : string) : string := replace_from old new 0 s.

Definition lower_ascii (c : ascii) : ascii :=
  let n := nat_of_ascii c in
  if (65 <=? n)%nat && (n <=? 90)%nat then ascii_of_nat (n + 32) else c.

(** [s.lower()] on ASCII text. *)
Fixpoint lower (s : string) : string :=
  match s with
  | EmptyString => EmptyString
  | String c s' => String (lower_ascii c) (lower s')
  end.

(** [s.count(c)] for a one-character [c]. *)
Fixpoint count (c : ascii) (s : string) : nat :=
  match s with
  | EmptyString => 0
  | String c' s' => (if Ascii.eqb c' c then 1 else 0) + count c s'
  end.

(** What [replace('p', '.')] does to one character. *)
Definition p_to_dot (c : ascii) : ascii := if Ascii.eqb c "p" then "."%char else c.

(** The string with [f] applied to every character. *)
Fixpoint map_chars (f : ascii → ascii) (s : string) : string :=
  match s with
  | EmptyString => EmptyString
  | String c s' => String (f c) (map_chars f s')
  end.

End PyStr.

(** ** The plotting library

    The part of ROOT the scripts call, after the library's documented
    behaviour.  Bin errors, entry counts and drawing attributes play no part
    in what the scripts compute and are left out. *)

Module ROOT.

(** An axis: its bins are numbered [1 .. fNbins]; bin labels are kept by
    bin number. *)
Record TAxis := mkTAxis {
  fNbins : nat;
  fXmin : Qc;
  fXmax : Qc;
  fAxisTitle : string;
  fLabels : gmap nat string
}.

(** A histogram.  [fArray] holds the cells in the library's global bin
    order; a one-dimensional histogram has [fNbins + 2] of them (underflow,
    the bins, overflow), a two-dimensional one [(nx + 2) * (ny + 2)], cell
    [(binx, biny)] at [binx + (nx + 2) * biny].  [fDirectory] is the open
    file that owns the object, if any: closing that file deletes it. *)
Record TH1 := mkTH1 {
  fName : string;
  fTitle : string;
  fXaxis : TAxis;
  fYaxis : TAxis;
  fZaxisTitle : string;
  fArray : list Qc;
  fDirectory : option string
}.

Definition no_axis : TAxis := mkTAxis 1 0 1 "" ∅.

Definition GetNbinsX (h : TH1) : nat := fNbins (fXaxis h).
Definition GetNbinsY (h : TH1) : nat := fNbins (fYaxis h).
Definition fNcells (h : TH1) : nat := length (fArray h).

(** Cell layout of a one-dimensional histogram. *)
Definition wf1 (h : TH1) : Prop :=
  1 ≤ GetNbinsX h ∧ length (fArray h) = GetNbinsX h + 2.

(** Cell layout of a two-dimensional histogram. *)
Definition wf2 (h : TH1) : Prop :=
  1 ≤ GetNbinsX h ∧ 1 ≤ GetNbinsY h ∧
  length (fArray h) = (GetNbinsX h + 2) * (GetNbinsY h + 2).

(** Two histograms of the same shape: as many bins on each axis and as
    many cells. *)
Definition same_shape (h h' : TH1) : Prop :=
  GetNbinsX h' = GetNbinsX h ∧ GetNbinsY h' = GetNbinsY h
  ∧ length (fArray h') = length (fArray h).

(** [TH1::GetBinContent(bin)]: a bin number past the last cell reads the
    last cell. *)
Definition GetBinContent (h : TH1) (bin : nat) : Qc :=
  default 0%Qc (fArray h !! (bin `min` (fNcells h - 1))).

(** [TH1::SetBinContent(bin, content)]: a bin number past the last cell is
    ignored (the axes are not extendable). *)
Definition SetBinContent (h : TH1) (bin : nat) (content : Qc) : TH1 :=
  mkTH1 (fName h) (fTitle h) (fXaxis h) (fYaxis h) (fZaxisTitle h)
        (<[bin := content]> (fArray h)) (fDirectory h).

(** [TH2::GetBin(binx, biny)]: both bin numbers are clamped to the overflow
    bin of their axis. *)
Definition GetBin (h : TH1) (binx biny : nat) : nat :=
  (binx `min` (GetNbinsX h + 1)) + (GetNbinsX h + 2) * (biny `min` (GetNbinsY h + 1)).

Definition GetBinContent2 (h : TH1) (binx biny : nat) : Qc :=
  GetBinContent h (GetBin h binx biny).

Definition SetBinContent2 (h : TH1) (binx biny : nat) (content : Qc) : TH1 :=
  SetBinContent h (GetBin h binx biny) content.

(** [TH1::Clone(newname)]: a copy under the new name (an empty [newname]
    keeps the old one), owned by the current directory [gDirectory]. *)
Definition Clone (gDirectory : option string) (h : TH1) (newname : string) : TH1 :=
  mkTH1 (if String.eqb newname "" then fName h else newname)
        (fTitle h) (fXaxis h) (fYaxis h) (fZaxisTitle h) (fArray h) gDirectory.

Definition SetDirectory (h : TH1) (dir : option string) : TH1 :=
  mkTH1 (fName h) (fTitle h) (fXaxis h) (fYaxis h) (fZaxisTitle h) (fArray h) dir.

Definition SetTitle (h : TH1) (title : string) : TH1 :=
  mkTH1 (fName h) title (fXaxis h) (fYaxis h) (fZaxisTitle h) (fArray h)
        (fDirectory h).

(** [TH1::Scale(c1)]: every cell, underflow and overflow included, is
    multiplied by [c1]. *)
Definition Scale (h : TH1) (c1 : Qc) : TH1 :=
  mkTH1 (fName h) (fTitle h) (fXaxis h) (fYaxis h) (fZaxisTitle h)
        (map (λ c, c1 * c)%Qc (fArray h)) (fDirectory h).

(** The test [if (c1)] of [TH1::Divide]. *)
Definition nonzero (c : Qc) : bool := negb (Qeq_bool c 0).

Definition divide_cell (c0 c1 : Qc) : Qc :=
  if nonzero c1 then (c0 / c1)%Qc else 0%Qc.

(** [TH1::Divide(h1)]: histograms with different numbers of bins are not
    divided (an error is logged and the histogram is left as it is);
    otherwise every cell [c0] becomes [c0 / c1], or 0 where [c1] is 0. *)
Definition Divide (h h1 : TH1) : TH1 :=
  if bool_decide (GetNbinsX h = GetNbinsX h1 ∧ fNcells h = fNcells h1)
  then mkTH1 (fName h) (fTitle h) (fXaxis h) (fYaxis h) (fZaxisTitle h)
             (zip_with divide_cell (fArray h) (fArray h1)) (fDirectory h)
  else h.

(** [TAxis::SetBinLabel(bin, label)]: an illegal bin number is reported and
    ignored; a label already set for the bin is overwritten. *)
Definition SetBinLabel (a : TAxis) (bin : nat) (label : string) : TAxis :=
  if bool_decide (1 ≤ bin ∧ bin ≤ fNbins a)
  then mkTAxis (fNbins a) (fXmin a) (fXmax a) (fAxisTitle a)
               (<[bin := label]> (fLabels a))
  else a.

(** [TAxis::GetBinLabel(bin)]: the empty string when the bin has no label. *)
Definition GetBinLabel (a : TAxis) (bin : nat) : string :=
  default "" (fLabels a !! bin).

Definition SetAxisTitle (a : TAxis) (title : string) : TAxis :=
  mkTAxis (fNbins a) (fXmin a) (fXmax a) title (fLabels a).

Definition with_Xaxis (h : TH1) (a : TAxis) : TH1 :=
  mkTH1 (fName h) (fTitle h) a (fYaxis h) (fZaxisTitle h) (fArray h)
        (fDirectory h).

Definition with_Yaxis (h : TH1) (a : TAxis) : TH1 :=
  mkTH1 (fName h) (fTitle h) (fXaxis h) a (fZaxisTitle h) (fArray h)
        (fDirectory h).

Definition with_Ztitle (h : TH1) (title : string) : TH1 :=
  mkTH1 (fName h) (fTitle h) (fXaxis h) (fYaxis h) title (fArray h)
        (fDirectory h).

(** The constructor [TH2F(name, title, nbinsx, xlow, xup, nbinsy, ylow,
    yup)]: a bin count of 0 is replaced by 1 (with a warning); all cells
    start at 0. *)
Definition TH2F (name title : string) (nbinsx : nat) (xlow xup : Qc)
    (nbinsy : nat) (ylow yup : Qc) : TH1 :=
  let nx := nbinsx `max` 1 in
  let ny := nbinsy `max` 1 in
  mkTH1 name title (mkTAxis nx xlow xup "" ∅) (mkTAxis ny ylow yup "" ∅) ""
        (replicate ((nx + 2) * (ny + 2)) 0%Qc) None.

(** A file on disk: one that [TFile::Open] cannot read (it returns a null
    or a zombie file), or a ROOT file with its objects by full path
    [directory/name]. *)
Inductive disk_file :=
  | Unreadable
  | RootFile (keys : gmap string TH1).

(** The file system: the files that exist, by path. *)
Abbreviation FS := (gmap string disk_file).

(** [root_file.Get(name)] hands out the object of the file: it is owned by
    the file. *)
Definition Get (path : string) (keys : gmap string TH1) (name : string) : option TH1 :=
  (λ h, SetDirectory h (Some path)) <$> keys !! name.

End ROOT.

(** ** Console, saved files and process outcome *)

(** What the scripts print, one constructor per [print] call of the two
    scripts (the text is the source's, the arguments its format fields). *)
Inductive message :=
  | ErrFileNotFound (filepath : string)
      (* Error: File {filepath} not found! *)
  | ErrCannotOpen (filepath : string)
      (* Error: Cannot open file {filepath} *)
  | ErrHistNotFound (full_hist_name filename : string)
      (* Error: Histogram '{full_hist_name}' not found in {filename} *)
  | WarnZeroEvents (full_hist_name filename : string)
      (* Warning: Histogram '...' in {filename} has zero events, cannot normalize. *)
  | ErrHistsNone
      (* Error: One or both histograms are None / One or more histograms are None *)
  | ErrYRange
      (* Error: --y-range must be a comma-separated list of numbers (e.g. 1,0.1,0.01) *)
  | InfoLoadingPair (filename1 filename2 hist_name : string)
      (* Loading histograms: / Numerator: ... / Denominator: ... *)
  | ErrLoadFailed
      (* Error: Failed to load one or both histograms *)
  | ErrRatioFailed
      (* Error: Failed to create ratio histogram *)
  | InfoSaved (output_path : string)
      (* Comparison and ratio plot saved as: ... / 2D histogram plot saved as: ... *)
  | InfoRatioDone
      (* Ratio plot creation completed successfully! *)
  | ErrNoHistograms
      (* Error: No histograms provided *)
  | Err2DNone
      (* Error: 2D histogram is None *)
  | InfoCreating (hist_name : string) (gluino_mass neutralino_mass : Z)
                 (decay_types ctau_list : list string) (era : string)
      (* Creating 2D histogram for: ... *)
  | InfoLoading (filename hist_name : string)
      (* Loading: {filename} -> {hist_name} *)
  | WarnSkipping (ctau decay_type : string)
      (* Warning: Skipping {ctau} {decay_type} due to loading failure *)
  | ErrNoneLoaded
      (* Error: No histograms could be loaded successfully *)
  | InfoLoaded (n : nat)
      (* Successfully loaded {n} histograms *)
  | Err2DFailed
      (* Error: Failed to create 2D histogram *)
  | Info2DDone.
      (* 2D histogram creation completed successfully! *)

Inductive event :=
  | Print (m : message)
  | MakeDir (path : string)
  | SaveAs (path : string).

(** How a computation ends: with a value, with [sys.exit(code)], or with an
    uncaught Python exception. *)
Inductive outcome (A : Type) :=
  | Return (a : A)
  | Exit (code : Z)
  | Raise (exn : string).
Arguments Return {A} a.
Arguments Exit {A} code.
Arguments Raise {A} exn.

(** A computation: the events it performed, in order, and how it ended. *)
Definition IO (A : Type) : Type := list event * outcome A.

Definition io_bind {A B} (k : A → IO B) (m : IO A) : IO B :=
  match m with
  | (t, Return a) => let '(t', r) := k a in (t ++ t', r)
  | (t, Exit code) => (t, Exit code)
  | (t, Raise exn) => (t, Raise exn)
  end.

#[global] Instance io_ret : MRet IO := λ A a, ([], Return a).
#[global] Instance io_mbind : MBind IO := λ A B k m, io_bind k m.

Definition print (m : message) : IO unit := ([Print m], Return tt).
Definition emit (e : event) : IO unit := ([e], Return tt).
Definition sys_exit {A} (code : Z) : IO A := ([], Exit code).
Definition raise {A} (exn : string) : IO A := ([], Raise exn).

Definition trace {A} (m : IO A) : list event := m.1.
Definition result {A} (m : IO A) : outcome A := m.2.

(** The exit status of the process whose [main] is [m]: 0 when [main]
    returns, the code of [sys.exit], 1 after an uncaught exception. *)
Definition exit_status (m : IO unit) : Z :=
  match result m with
  | Return _ => 0
  | Exit code => code
  | Raise _ => 1
  end.

(** The image files written by a run. *)
Definition saved (t : list event) : list string :=
  omap (λ e, match e with SaveAs p => Some p | _ => None end) t.

Definition saved_files {A} (m : IO A) : list string := saved (trace m).

(** A [for] loop over [l] whose body updates the loop state [s]. *)
Fixpoint for_each {A S} (l : list A) (body : A → S → IO S) (s : S) : IO S :=
  match l with
  | [] => mret s
  | x :: l' => s' ← body x s; for_each l' body s'
  end.

(** [enumerate(l)] *)
Definition enumerate {A} (l : list A) : list (nat * A) :=
  zip (seq 0 (length l)) l.

Definition nat_to_Qc (n : nat) : Qc := Q2Qc (inject_Z (Z.of_nat n)).

(** The directories of a plotter object made with the default [base_dir]
    (the directory is taken to exist). *)
Definition base_dir : string := "/eos/user/c/cthompso/analysis/CMSSW_15_0_16/src".
Definition ntuples_dir : string := base_dir +:+ "/ntuples".
Definition plots_dir : string := base_dir +:+ "/plots".

(** [dir / name] *)
Definition path_join (dir name : string) : string := dir +:+ "/" +:+ name.

(** ** The ratio builder ([ratio.py]) *)

Module Ratio.
Import ROOT.

(** [HistogramRatioPlotter.__init__] *)
Definition init : IO unit := emit (MakeDir plots_dir).

(** [format_ctau_label] *)
Definition format_ctau_label (ctau decay_type : string) : string :=
  let ctau_display :=
    if String.eqb ctau "10000mm" then "10k"
    else if String.eqb ctau "1000mm" then "1k"
    else PyStr.replace "mm" "" (PyStr.replace "p" "." ctau) in
  let decay_label := if String.eqb decay_type "lightDecay" then "(L)" else "(H)" in
  "c\tau = " +:+ ctau_display +:+ " mm " +:+ decay_label.

(** [construct_filename] *)
Definition construct_filename (gluino_mass neutralino_mass : Z)
    (ctau decay_type era : string) : string :=
  "gluino" +:+ pretty gluino_mass +:+ "_chi10" +:+ pretty neutralino_mass
  +:+ "_" +:+ ctau +:+ "_" +:+ decay_type +:+ "_" +:+ era +:+ ".root".

(** The normalization step of [load_histogram]: scale by the inverse of the
    first bin when that is positive, warn otherwise. *)
Definition normalize (full_hist_name filename : string) (hist_clone : TH1) : IO TH1 :=
  let eventCount := GetBinContent hist_clone 1 in
  if bool_decide (0 < eventCount)%Qc
  then mret (Scale hist_clone (1 / eventCount)%Qc)
  else print (WarnZeroEvents full_hist_name filename) ;; mret hist_clone.

(** [load_histogram] *)
Definition load_histogram (fs : FS) (filename hist_name : string) : IO (option TH1) :=
  let filepath := path_join ntuples_dir filename in
  match fs !! filepath with
  | None => print (ErrFileNotFound filepath) ;; mret None
  | Some Unreadable => print (ErrCannotOpen filepath) ;; mret None
  | Some (RootFile root_file) =>
      let mini_name := "HSCPMiniAODAnalyzer/" +:+ hist_name in
      let '(full_hist_name, hist) :=
        match Get filepath root_file mini_name with
        | Some hist => (mini_name, Some hist)
        | None =>
            let full_name := "HSCPFullAODAnalyzer/" +:+ hist_name in
            (full_name, Get filepath root_file full_name)
        end in
      match hist with
      | None => print (ErrHistNotFound full_hist_name filename) ;; mret None
      | Some hist =>
          let hist_clone :=
            Clone (Some filepath) hist
                  (hist_name +:+ "_" +:+ PyStr.replace ".root" "" filename) in
          let hist_clone := SetDirectory hist_clone None in
          hist_clone ← normalize full_hist_name filename hist_clone;
          mret (Some hist_clone)
      end
  end.

(** [create_ratio_plot] *)
Definition create_ratio_plot (hist1 hist2 : option TH1) (title : string) : IO (option TH1) :=
  match hist1, hist2 with
  | Some hist1, Some hist2 =>
      let ratio := Clone None hist1 ("ratio_" +:+ fName hist1 +:+ "_" +:+ fName hist2) in
      let ratio := SetTitle ratio title in
      let ratio := Divide ratio hist2 in
      let ratio := with_Yaxis ratio (SetAxisTitle (fYaxis ratio) "Ratio") in
      mret (Some ratio)
  | _, _ => print ErrHistsNone ;; mret None
  end.

(** [save_ratio_plot]: what is drawn on the canvas is not modelled, the
    file it is saved to is. *)
Definition save_ratio_plot (hist1 hist2 ratio_hist : option TH1) (output_name : string)
    (numerator_label denominator_label : string) (log_scale : bool)
    (y_range : option (list Qc)) : IO unit :=
  match hist1, hist2, ratio_hist with
  | Some _, Some _, Some _ =>
      let output_path := path_join plots_dir (output_name +:+ ".pdf") in
      emit (SaveAs output_path) ;;
      print (InfoSaved output_path)
  | _, _, _ => print ErrHistsNone
  end.

(** The command line after [parser.parse_args()]. *)
Record Args := mkArgs {
  hist_name : string;
  gluino_mass : Z;
  neutralino_mass : Z;
  ctau1 : string;
  ctau2 : string;
  decay_type : string;
  era : string;
  output_name : string;
  log_scale : bool;
  y_range : string
}.

(** The histogram [main] loads for the sample with decay length [ctau], if
    any. *)
Definition try_load (fs : FS) (args : Args) (ctau : string) : option TH1 :=
  let filename := construct_filename (gluino_mass args) (neutralino_mass args)
                    ctau (decay_type args) (era args) in
  match result (load_histogram fs filename (hist_name args)) with
  | Return hist => hist
  | _ => None
  end.

Section Main.

(** Python's [float(x)] on a string: [None] when it raises [ValueError]. *)
Variable py_float : string → option Qc.

(** The parsing of [--y-range]: [None] stands for the [ValueError] of the
    list comprehension, an empty flag gives no range. *)
Definition parse_y_range (s : string) : option (option (list Qc)) :=
  if String.eqb s "" then Some None
  else Some <$> mapM py_float (PyStr.split "," s).

(** [main], from the parsed command line on. *)
Definition main (fs : FS) (args : Args) : IO unit :=
  y_range ← match parse_y_range (y_range args) with
            | Some y_range => mret y_range
            | None => print ErrYRange ;; sys_exit 1
            end;
  init ;;
  let filename1 := construct_filename (gluino_mass args) (neutralino_mass args)
                     (ctau1 args) (decay_type args) (era args) in
  let filename2 := construct_filename (gluino_mass args) (neutralino_mass args)
                     (ctau2 args) (decay_type args) (era args) in
  print (InfoLoadingPair filename1 filename2 (hist_name args)) ;;
  hist1 ← load_histogram fs filename1 (hist_name args);
  hist2 ← load_histogram fs filename2 (hist_name args);
  match hist1, hist2 with
  | Some _, Some _ =>
      let title := hist_name args +:+ " Ratio: " +:+ ctau1 args +:+ " / " +:+ ctau2 args in
      ratio_hist ← create_ratio_plot hist1 hist2 title;
      match ratio_hist with
      | None => print ErrRatioFailed ;; sys_exit 1
      | Some _ =>
          let output_name :=
            if String.eqb (output_name args) "" then
              "ratio_" +:+ hist_name args +:+ "_gluino" +:+ pretty (gluino_mass args)
              +:+ "_chi10" +:+ pretty (neutralino_mass args) +:+ "_" +:+ ctau1 args
              +:+ "_vs_" +:+ ctau2 args +:+ "_" +:+ decay_type args
            else output_name args in
          let numerator_label := format_ctau_label (ctau1 args) (decay_type args) in
          let denominator_label := format_ctau_label (ctau2 args) (decay_type args) in
          save_ratio_plot hist1 hist2 ratio_hist output_name numerator_label
                          denominator_label (log_scale args) y_range ;;
          print InfoRatioDone
      end
  | _, _ => print ErrLoadFailed ;; sys_exit 1
  end.

End Main.

End Ratio.

(** ** The grid builder ([2DHistogram.py]) *)

Module Grid.
Import ROOT.

(** [Histogram2DPlotter.__init__] *)
Definition init : IO unit := emit (MakeDir plots_dir).

(** [construct_filename] *)
Definition construct_filename (gluino_mass neutralino_mass : Z)
    (ctau decay_type era : string) : string :=
  "gluino" +:+ pretty gluino_mass +:+ "_chi10" +:+ pretty neutralino_mass
  +:+ "_" +:+ ctau +:+ "_" +:+ decay_type +:+ "_" +:+ era +:+ ".root".

(** [load_histogram] *)
Definition load_histogram (fs : FS) (filename hist_name : string) : IO (option TH1) :=
  let filepath := path_join ntuples_dir filename in
  match fs !! filepath with
  | None => print (ErrFileNotFound filepath) ;; mret None
  | Some Unreadable => print (ErrCannotOpen filepath) ;; mret None
  | Some (RootFile root_file) =>
      let full_hist_name := "HSCPMiniAODAnalyzer/" +:+ hist_name in
      match Get filepath root_file full_hist_name with
      | None => print (ErrHistNotFound full_hist_name filename) ;; mret None
      | Some hist =>
          let hist_clone :=
            Clone (Some filepath) hist
                  (hist_name +:+ "_" +:+ PyStr.replace ".root" "" filename) in
          let hist_clone := SetDirectory hist_clone None in
          mret (Some hist_clone)
      end
  end.

(** The first loop of [create_2d_histogram]: copy the x-axis bin labels. *)
Definition copy_x_labels (first_hist : TH1) (n_x_bins : nat) (hist_2d : TH1) : TH1 :=
  fold_left
    (λ hist_2d x_bin,
       let bin_label := GetBinLabel (fXaxis first_hist) x_bin in
       if String.eqb bin_label "" then hist_2d
       else with_Xaxis hist_2d (SetBinLabel (fXaxis hist_2d) x_bin bin_label))
    (seq 1 n_x_bins) hist_2d.

(** The body of the second loop: label one row. *)
Definition label_row (hist_2d : TH1) (row : nat * string) : TH1 :=
  let '(i, label) := row in
  with_Yaxis hist_2d (SetBinLabel (fYaxis hist_2d) (i + 1) label).

(** The second loop: set the y-axis labels. *)
Definition set_y_labels (ctau_labels : list string) (hist_2d : TH1) : TH1 :=
  fold_left label_row (enumerate ctau_labels) hist_2d.

(** The body of the inner loop of the fill: copy one bin. *)
Definition fill_cell (ctau_idx : nat) (hist : TH1) (hist_2d : TH1) (x_bin : nat) : TH1 :=
  let bin_content := GetBinContent hist x_bin in
  SetBinContent2 hist_2d x_bin (ctau_idx + 1) bin_content.

(** The inner loop of the fill: one row. *)
Definition fill_row (n_x_bins ctau_idx : nat) (hist : TH1) (hist_2d : TH1) : TH1 :=
  fold_left (fill_cell ctau_idx hist) (seq 1 n_x_bins) hist_2d.

(** The body of the outer loop of the fill: null histograms are skipped. *)
Definition fill_step (n_x_bins : nat) (hist_2d : TH1) (row : nat * option TH1) : TH1 :=
  let '(ctau_idx, hist) := row in
  match hist with
  | None => hist_2d
  | Some hist => fill_row n_x_bins ctau_idx hist hist_2d
  end.

(** The third loop: fill the grid. *)
Definition fill (n_x_bins : nat) (histograms : list (option TH1)) (hist_2d : TH1) : TH1 :=
  fold_left (fill_step n_x_bins) (enumerate histograms) hist_2d.

(** [create_2d_histogram]: a null first histogram makes
    [first_hist.GetNbinsX()] raise. *)
Definition create_2d_histogram (histograms : list (option TH1))
    (ctau_labels : list string) (hist_name : string) : IO (option TH1) :=
  match histograms with
  | [] => print ErrNoHistograms ;; mret None
  | None :: _ => raise "AttributeError"
  | Some first_hist :: _ =>
      let n_x_bins := GetNbinsX first_hist in
      let x_min := fXmin (fXaxis first_hist) in
      let x_max := fXmax (fXaxis first_hist) in
      let n_ctau := length histograms in
      let hist_2d := TH2F ("2D_" +:+ hist_name) ("2D " +:+ hist_name)
                          n_x_bins x_min x_max n_ctau 0 (nat_to_Qc n_ctau) in
      let hist_2d := copy_x_labels first_hist n_x_bins hist_2d in
      let hist_2d := set_y_labels ctau_labels hist_2d in
      let hist_2d := fill n_x_bins histograms hist_2d in
      let hist_2d := with_Xaxis hist_2d
                       (SetAxisTitle (fXaxis hist_2d) (fAxisTitle (fXaxis first_hist))) in
      let hist_2d := with_Yaxis hist_2d
                       (SetAxisTitle (fYaxis hist_2d) "ctau [mm] (Decay Type)") in
      let hist_2d := with_Ztitle hist_2d "Counts" in
      mret (Some hist_2d)
  end.

(** [save_2d_plot]: what is drawn is not modelled, the file it is saved to
    is. *)
Definition save_2d_plot (hist_2d : option TH1) (output_name : string)
    (log_scale_z : bool) : IO unit :=
  match hist_2d with
  | None => print Err2DNone
  | Some _ =>
      let output_path := path_join plots_dir (output_name +:+ ".pdf") in
      emit (SaveAs output_path) ;;
      print (InfoSaved output_path)
  end.

(** [parse_ctau_list] *)
Definition parse_ctau_list (ctau_string : string) : list string :=
  map PyStr.strip (PyStr.split "," ctau_string).

(** [sep.join(l)] *)
Fixpoint join (sep : string) (l : list string) : string :=
  match l with
  | [] => ""
  | [x] => x
  | x :: l' => x +:+ sep +:+ join sep l'
  end.

(** The command line after [parser.parse_args()]. *)
Record Args := mkArgs {
  hist_name : string;
  gluino_mass : Z;
  neutralino_mass : Z;
  ctaus : string;
  decay_types : string;
  era : string;
  output_name : string;
  log_scale_z : bool
}.

(** The label of a loaded histogram (the body of [if hist:] in [main]). *)
Definition make_label (ctau decay_type : string) : string :=
  let decay_label := if String.eqb decay_type "lightDecay" then "L" else "H" in
  let ctau_display :=
    if String.eqb ctau "1000mm" then "1k"
    else if String.eqb ctau "10000mm" then "10k"
    else PyStr.replace "p" "." (PyStr.replace "mm" "" ctau) in
  ctau_display +:+ " (" +:+ decay_label +:+ ")".

(** The loop state of [main]: [histograms] and [valid_labels]. *)
Definition loaded : Type := list TH1 * list string.

(** The body of the inner loop of [main]. *)
Definition load_one (fs : FS) (args : Args) (decay_type ctau : string)
    (st : loaded) : IO loaded :=
  let filename := construct_filename (gluino_mass args) (neutralino_mass args)
                    ctau decay_type (era args) in
  print (InfoLoading filename (hist_name args)) ;;
  hist ← load_histogram fs filename (hist_name args);
  match hist with
  | Some hist => mret (st.1 ++ [hist], st.2 ++ [make_label ctau decay_type])
  | None => print (WarnSkipping ctau decay_type) ;; mret st
  end.

(** The decay types [main] goes through. *)
Definition decay_type_list (args : Args) : list string :=
  if String.eqb (PyStr.lower (decay_types args)) "both"
  then ["lightDecay"; "heavyDecay"]
  else [decay_types args].

(** The loading loops of [main]. *)
Definition load_all (fs : FS) (args : Args) (decay_types ctau_list : list string)
    : IO loaded :=
  for_each decay_types
    (λ decay_type st, for_each ctau_list (load_one fs args decay_type) st)
    ([], []).

(** The histogram [main] loads for one parameter point, if any. *)
Definition try_load (fs : FS) (args : Args) (decay_type ctau : string) : option TH1 :=
  let filename := construct_filename (gluino_mass args) (neutralino_mass args)
                    ctau decay_type (era args) in
  match result (load_histogram fs filename (hist_name args)) with
  | Return hist => hist
  | _ => None
  end.

(** The parameter points [main] goes through, in the order of its loops. *)
Definition points (decay_types ctau_list : list string) : list (string * string) :=
  decay_type ← decay_types; ctau ← ctau_list; [(decay_type, ctau)].

(** [main], from the parsed command line on. *)
Definition main (fs : FS) (args : Args) : IO unit :=
  init ;;
  let ctau_list := parse_ctau_list (ctaus args) in
  let decay_types := decay_type_list args in
  print (InfoCreating (hist_name args) (gluino_mass args) (neutralino_mass args)
                      decay_types ctau_list (era args)) ;;
  '(histograms, valid_labels) ← load_all fs args decay_types ctau_list;
  if bool_decide (length histograms = 0)
  then print ErrNoneLoaded ;; sys_exit 1
  else
    print (InfoLoaded (length histograms)) ;;
    hist_2d ← create_2d_histogram (Some <$> histograms) valid_labels (hist_name args);
    match hist_2d with
    | None => print Err2DFailed ;; sys_exit 1
    | Some _ =>
        let output_name :=
          if String.eqb (output_name args) "" then
            let decay_str :=
              if bool_decide (1 < length decay_types) then "both"
              else default "" (head decay_types) in
            let ctau_str := join "_" ctau_list in
            "2D_" +:+ hist_name args +:+ "_gluino" +:+ pretty (gluino_mass args)
            +:+ "_chi10" +:+ pretty (neutralino_mass args) +:+ "_" +:+ decay_str
            +:+ "_" +:+ ctau_str
          else output_name args in
        save_2d_plot hist_2d output_name (log_scale_z args) ;;
        print Info2DDone
    end.

End Grid.

(** ** The file naming convention, as the specification words it *)

(** [gluino<mass>_chi10<otherMass>_<decayLength><unit>_<channel>Decay_<era>.root] *)
Definition filename_convention (mass otherMass decayLength unit channel era : string)
    : string :=
  "gluino" +:+ mass +:+ "_chi10" +:+ otherMass +:+ "_" +:+ decayLength +:+ unit
  +:+ "_" +:+ channel +:+ "Decay_" +:+ era +:+ ".root".

(** ** Sample inputs *)

Module Sample.
Import ROOT.

Definition qc (n d : Z) : Qc := Q2Qc (Qmake n (Z.to_pos d)).

(** A one-dimensional histogram with the given bins, empty underflow and
    overflow, not owned by any file. *)
Definition hist (name : string) (bins : list Qc) : TH1 :=
  mkTH1 name "" (mkTAxis (length bins) 0 (nat_to_Qc (length bins)) "" ∅)
        no_axis "" (0%Qc :: bins ++ [0%Qc]) None.

Definition counts : TH1 :=
  hist "EventCutFlow" [qc 100 1; qc 50 1; qc 25 1; qc 10 1].

Definition numerator : TH1 :=
  hist "num" [qc 1 1; qc 1 2; qc 1 4; qc 1 10].

Definition denominator : TH1 :=
  hist "den" [qc 1 1; qc 2 5; qc 1 5; qc 0 1].

Definition empty_counts : TH1 :=
  hist "EventCutFlow" [qc 0 1; qc 7 1; qc 3 1].

Definition file : string :=
  "gluino1800_chi101300_0p1mm_lightDecay_130X_mcRun3_2023_realistic_postBPix_v2.root".

(** A file system whose one file has the histogram under the first
    prefix. *)
Definition fs_first : FS :=
  {[ path_join ntuples_dir file :=
       RootFile {[ "HSCPMiniAODAnalyzer/EventCutFlow" := counts ]} ]}.

(** A file system whose one file has the histogram under the second prefix
    only. *)
Definition fs_second : FS :=
  {[ path_join ntuples_dir file :=
       RootFile {[ "HSCPFullAODAnalyzer/EventCutFlow" := counts ]} ]}.

Definition denominator_spec : TH1 :=
  hist "den" [qc 1 1; qc 2 5; qc 1 5; qc 1 20].

(** A file system whose one file has, under the second prefix only, a
    histogram with an empty first bin. *)
Definition fs_empty_counts : FS :=
  {[ path_join ntuples_dir file :=
       RootFile {[ "HSCPFullAODAnalyzer/EventCutFlow" := empty_counts ]} ]}.

(** A histogram with two bins. *)
Definition short_counts : TH1 := hist "short" [qc 8 1; qc 2 1].

(** A cut-flow histogram with labelled bins, a titled x axis and events in
    its overflow cell. *)
Definition labelled_counts : TH1 :=
  mkTH1 "EventCutFlow" ""
        (mkTAxis 3 (qc (-1) 2) (qc 5 2) "cut"
                 {[ 1 := "AllEvents"; 2 := "Trigger" ]})
        no_axis "" [qc 0 1; qc 40 1; qc 30 1; qc 20 1; qc 9 1] None.

Definition era : string := "130X_mcRun3_2023_realistic_postBPix_v2".

Definition file_heavy_1mm : string :=
  "gluino1800_chi101300_1mm_heavyDecay_130X_mcRun3_2023_realistic_postBPix_v2.root".

Definition file_light_10000mm : string :=
  "gluino1800_chi101300_10000mm_lightDecay_130X_mcRun3_2023_realistic_postBPix_v2.root".

(** Three result files: lightDecay at 0p1mm and at 10000mm, heavyDecay at
    1mm. *)
Definition fs_grid : FS :=
  <[ path_join ntuples_dir file :=
       RootFile {[ "HSCPMiniAODAnalyzer/EventCutFlow" := counts ]} ]>
  (<[ path_join ntuples_dir file_heavy_1mm :=
       RootFile {[ "HSCPMiniAODAnalyzer/EventCutFlow" := numerator ]} ]>
  {[ path_join ntuples_dir file_light_10000mm :=
       RootFile {[ "HSCPMiniAODAnalyzer/EventCutFlow" := counts ]} ]}).

Definition grid_args : Grid.Args :=
  Grid.mkArgs "EventCutFlow" 1800 1300 "0p1mm, 1mm" "Both" era "" true.

Definition ratio_args (y_range : string) : Ratio.Args :=
  Ratio.mkArgs "EventCutFlow" 1800 1300 "0p1mm" "10000mm" "lightDecay" era ""
               false y_range.

(** A stand-in for [float] in the examples: it reads plain decimal
    literals such as [0.01] and rejects everything else. *)
Fixpoint decimal (s : string) (num : Z) (scale : option positive) : option Qc :=
  match s with
  | EmptyString => Some (Q2Qc (Qmake num (default 1%positive scale)))
  | String c s' =>
      if Ascii.eqb c "." then
        match scale with
        | None => decimal s' num (Some 1%positive)
        | Some _ => None
        end
      else
        let d := nat_of_ascii c in
        if (48 <=? d) && (d <=? 57)
        then decimal s' (10 * num + Z.of_nat (d - 48))
                     ((λ p, 10 * p)%positive <$> scale)
        else None
  end.

Definition py_float (s : string) : option Qc :=
  if String.eqb s "" then None else decimal s 0 None.

End Sample.

(** ** Properties of the plotting-library operations *)

Section LibraryFacts.
Import ROOT.

Lemma nonzero_spec (c : Qc) : nonzero c = true ↔ c ≠ 0%Qc.
Proof.
  unfold nonzero. rewrite negb_true_iff. split.
  - intros Hb ->. discriminate Hb.
  - intros Hne. destruct (Qeq_bool c 0) eqn:Hb; [|done].
    exfalso. apply Hne, Qc_is_canon. by apply Qeq_bool_iff.
Qed.




Lemma GetBinContent_Divide (h h1 : TH1) (bin : nat) :
  wf1 h → wf1 h1 → GetNbinsX h = GetNbinsX h1 →
  GetBinContent (Divide h h1) bin
  = divide_cell (GetBinContent h bin) (GetBinContent h1 bin).
Proof.
  intros [Hn Hlen] [Hn1 Hlen1] Heq.
  unfold Divide, fNcells. rewrite bool_decide_eq_true_2 by (split; [done|lia]).
  unfold GetBinContent, fNcells; simpl.
  rewrite length_zip_with, lookup_zip_with.
  replace (length (fArray h) `min` length (fArray h1)) with (length (fArray h)) by lia.
  replace (length (fArray h1)) with (length (fArray h)) by lia.
  destruct (lookup_lt_is_Some_2 (fArray h) (bin `min` (length (fArray h) - 1)))
    as [c0 Hc0]; [lia|].
  destruct (lookup_lt_is_Some_2 (fArray h1) (bin `min` (length (fArray h) - 1)))
    as [c1 Hc1]; [lia|].
  by rewrite Hc0, Hc1.
Qed.

End LibraryFacts.

(** ** The ratio histogram *)

Section RatioFacts.
Import ROOT.



End RatioFacts.

(** ** Normalization *)

Section NormalizeFacts.
Import ROOT.



(** C4: when the first bin of a histogram is 0, the normalization step
    returns the histogram itself, so every bin is unchanged, after printing
    the zero-events warning; it ends normally, without an exception. *)
Theorem normalize_zero (full_hist_name filename : string) (h : TH1) :
  GetBinContent h 1 = 0%Qc →
  Ratio.normalize full_hist_name filename h
  = ([Print (WarnZeroEvents full_hist_name filename)], Return h).
Proof.
  intros HV. unfold Ratio.normalize. rewrite HV.
  by rewrite bool_decide_eq_false_2.
Qed.

Lemma normalize_zero_witness :
  Ratio.normalize "HSCPMiniAODAnalyzer/EventCutFlow" "f.root" Sample.empty_counts
  = ([Print (WarnZeroEvents "HSCPMiniAODAnalyzer/EventCutFlow" "f.root")],
     Return Sample.empty_counts).
Proof.
  apply (normalize_zero "HSCPMiniAODAnalyzer/EventCutFlow" "f.root" Sample.empty_counts).
  apply Qc_is_canon. reflexivity.
Defined.

End NormalizeFacts.

(** ** The two histogram loaders *)

Section LoaderFacts.
Import ROOT.

Implicit Types (fs : FS) (filename hist_name : string).

(** The ratio builder's loader always returns: a null result exactly when
    the file is missing or unreadable or has the histogram under neither
    prefix, then with a message; otherwise a histogram no file owns. *)
Lemma ratio_load_histogram_contract fs filename hist_name :
  ∃ o,
    result (Ratio.load_histogram fs filename hist_name) = Return o
    ∧ (o = None ↔
         match fs !! path_join ntuples_dir filename with
         | None | Some Unreadable => True
         | Some (RootFile keys) =>
             keys !! ("HSCPMiniAODAnalyzer/" +:+ hist_name) = None
             ∧ keys !! ("HSCPFullAODAnalyzer/" +:+ hist_name) = None
         end)
    ∧ (o = None → ∃ m, trace (Ratio.load_histogram fs filename hist_name) = [Print m])
    ∧ (∀ h, o = Some h → fDirectory h = None).
Proof.
  unfold Ratio.load_histogram, Get.
  destruct (fs !! _) as [[|keys]|]; simpl.
  - exists None. split; [done|]. split; [by split|]. split; [by eauto|done].
  - destruct (keys !! ("HSCPMiniAODAnalyzer/" +:+ hist_name)) as [h|]; simpl.
    + unfold Ratio.normalize. case_bool_decide; simpl; eexists;
        (split; [reflexivity|]); (split; [split; [done|by intros []]|]);
        (split; [done|]); by intros ? [= <-].
    + destruct (keys !! ("HSCPFullAODAnalyzer/" +:+ hist_name)) as [h|]; simpl.
      * unfold Ratio.normalize. case_bool_decide; simpl; eexists;
          (split; [reflexivity|]); (split; [split; [done|by intros []]|]);
          (split; [done|]); by intros ? [= <-].
      * exists None. split; [done|]. split; [by split|]. split; [by eauto|done].
  - exists None. split; [done|]. split; [by split|]. split; [by eauto|done].
Qed.

(** The grid builder's loader always returns: a null result exactly when
    the file is missing or unreadable or does not have the histogram under
    the first prefix, then with a message; otherwise a copy of the stored
    histogram that no file owns. *)
Lemma grid_load_histogram_contract fs filename hist_name :
  ∃ o,
    result (Grid.load_histogram fs filename hist_name) = Return o
    ∧ (o = None ↔
         match fs !! path_join ntuples_dir filename with
         | None | Some Unreadable => True
         | Some (RootFile keys) =>
             keys !! ("HSCPMiniAODAnalyzer/" +:+ hist_name) = None
         end)
    ∧ (o = None → ∃ m, trace (Grid.load_histogram fs filename hist_name) = [Print m])
    ∧ (∀ h, o = Some h →
         fDirectory h = None
         ∧ ∃ keys stored,
             fs !! path_join ntuples_dir filename = Some (RootFile keys)
             ∧ keys !! ("HSCPMiniAODAnalyzer/" +:+ hist_name) = Some stored
             ∧ fArray h = fArray stored ∧ fXaxis h = fXaxis stored).
Proof.
  unfold Grid.load_histogram, Get.
  destruct (fs !! _) as [[|keys]|]; simpl.
  - exists None. split; [done|]. split; [by split|]. split; [by eauto|done].
  - destruct (keys !! ("HSCPMiniAODAnalyzer/" +:+ hist_name)) as [h|] eqn:Hfirst; simpl.
    + eexists. split; [reflexivity|]. split; [done|]. split; [done|].
      intros h' [= <-]. split; [done|]. by exists keys, h.
    + exists None. split; [done|]. split; [by split|]. split; [by eauto|done].
  - exists None. split; [done|]. split; [by split|]. split; [by eauto|done].
Qed.

(** C5, as the code has it: unless the file has the histogram under the
    second prefix only, the ratio builder's loader returns what the grid
    builder's loader returns, passed through the normalization step (a null
    result stays null). *)
Theorem load_histogram_ratio_vs_grid fs filename hist_name :
  (∀ keys,
     fs !! path_join ntuples_dir filename = Some (RootFile keys) →
     keys !! ("HSCPMiniAODAnalyzer/" +:+ hist_name) = None →
     keys !! ("HSCPFullAODAnalyzer/" +:+ hist_name) = None) →
  result (Ratio.load_histogram fs filename hist_name)
  = result (o ← Grid.load_histogram fs filename hist_name;
            match o with
            | None => mret None
            | Some h =>
                h' ← Ratio.normalize ("HSCPMiniAODAnalyzer/" +:+ hist_name) filename h;
                mret (Some h')
            end).
Proof.
  intros Hsecond. unfold Ratio.load_histogram, Grid.load_histogram, Get.
  destruct (fs !! _) as [[|keys]|]; simpl; [done| |done].
  destruct (keys !! ("HSCPMiniAODAnalyzer/" +:+ hist_name)) as [h|] eqn:Hfirst; simpl.
  - unfold Ratio.normalize. by case_bool_decide.
  - by rewrite (Hsecond keys eq_refl Hfirst).
Qed.

Lemma load_histogram_ratio_vs_grid_witness :
  result (Ratio.load_histogram Sample.fs_first Sample.file "EventCutFlow")
  = result (o ← Grid.load_histogram Sample.fs_first Sample.file "EventCutFlow";
            match o with
            | None => mret None
            | Some h =>
                h' ← Ratio.normalize "HSCPMiniAODAnalyzer/EventCutFlow" Sample.file h;
                mret (Some h')
            end).
Proof.
  apply (load_histogram_ratio_vs_grid Sample.fs_first Sample.file "EventCutFlow").
  intros keys Hfile Hfirst. vm_compute in Hfile.
  injection Hfile as <-. vm_compute in Hfirst. discriminate Hfirst.
Defined.

(** C5 fails as stated: on a file that has the histogram under the first
    prefix, with first bin 100, the ratio builder's loader returns the
    normalized histogram and the grid builder's loader the stored one. *)
Lemma load_histogram_not_identical :
  ¬ (∀ fs filename hist_name,
       result (Ratio.load_histogram fs filename hist_name)
       = result (Grid.load_histogram fs filename hist_name)).
Proof.
  intros H. specialize (H Sample.fs_first Sample.file "EventCutFlow").
  apply (f_equal (λ r : outcome (option TH1),
     match r with Return (Some h) => this (GetBinContent h 1) | _ => 0%Q end)) in H.
  vm_compute in H. discriminate H.
Qed.

(** C6 at a file that has the histogram under the second prefix only: the
    grid builder's loader reports it as not found and returns a null
    result, where the ratio builder's loader returns the histogram. *)
Theorem grid_load_histogram_second_prefix :
  Sample.fs_second !! path_join ntuples_dir Sample.file
  = Some (RootFile {[ "HSCPFullAODAnalyzer/EventCutFlow" := Sample.counts ]})
  ∧ Grid.load_histogram Sample.fs_second Sample.file "EventCutFlow"
    = ([Print (ErrHistNotFound "HSCPMiniAODAnalyzer/EventCutFlow" Sample.file)],
       Return None)
  ∧ ∃ h, Ratio.load_histogram Sample.fs_second Sample.file "EventCutFlow"
         = ([], Return (Some h)).
Proof.
  split; [by vm_compute|]. split; [by vm_compute|].
  eexists. vm_compute. reflexivity.
Qed.

End LoaderFacts.

(** ** The grid histogram *)

Section GridFacts.
Import ROOT.

Implicit Types (h hist : TH1) (j k r : nat).

Lemma same_shape_refl h : same_shape h h.
Proof. done. Qed.

Lemma same_shape_trans h h' h'' :
  same_shape h h' → same_shape h' h'' → same_shape h h''.
Proof. unfold same_shape. intros (?&?&?) (?&?&?). repeat split; congruence. Qed.

Lemma same_shape_wf2 h h' : same_shape h h' → wf2 h → wf2 h'.
Proof. unfold same_shape, wf2. intros (->&->&->). done. Qed.

Lemma TH2F_shape name title nx xlow xup ny ylow yup :
  1 ≤ nx → 1 ≤ ny →
  let h := TH2F name title nx xlow xup ny ylow yup in
  GetNbinsX h = nx ∧ GetNbinsY h = ny ∧ wf2 h.
Proof.
  intros Hx Hy. unfold TH2F, wf2, GetNbinsX, GetNbinsY; simpl.
  rewrite length_replicate. rewrite !Nat.max_l by done. done.
Qed.

Lemma GetBin_in_range h j r :
  j ≤ GetNbinsX h + 1 → r ≤ GetNbinsY h + 1 →
  GetBin h j r = j + (GetNbinsX h + 2) * r.
Proof. intros Hj Hr. unfold GetBin. by rewrite !Nat.min_l. Qed.

Lemma cell_index_lt h j r :
  wf2 h → j ≤ GetNbinsX h + 1 → r ≤ GetNbinsY h + 1 →
  j + (GetNbinsX h + 2) * r < length (fArray h).
Proof. intros (_&_&->) Hj Hr. nia. Qed.

Lemma cell_index_inj (b j r j' r' : nat) :
  j ≤ b + 1 → j' ≤ b + 1 →
  j + (b + 2) * r = j' + (b + 2) * r' → j = j' ∧ r = r'.
Proof. intros Hj Hj' Heq. assert (r = r') by nia. subst. lia. Qed.

Lemma GetBinContent2_lookup h j r :
  wf2 h → j ≤ GetNbinsX h + 1 → r ≤ GetNbinsY h + 1 →
  GetBinContent2 h j r = default 0%Qc (fArray h !! (j + (GetNbinsX h + 2) * r)).
Proof.
  intros Hwf Hj Hr. unfold GetBinContent2, GetBinContent, fNcells.
  rewrite GetBin_in_range by done.
  pose proof (cell_index_lt h j r Hwf Hj Hr). by rewrite Nat.min_l by lia.
Qed.

Lemma SetBinContent2_shape h j r c : same_shape h (SetBinContent2 h j r c).
Proof.
  unfold same_shape, SetBinContent2, SetBinContent, GetNbinsX, GetNbinsY; simpl.
  by rewrite length_insert.
Qed.

(** Reading a cell after writing one. *)
Lemma GetBinContent2_SetBinContent2 h j r c j' r' :
  wf2 h →
  j ≤ GetNbinsX h + 1 → r ≤ GetNbinsY h + 1 →
  j' ≤ GetNbinsX h + 1 → r' ≤ GetNbinsY h + 1 →
  GetBinContent2 (SetBinContent2 h j r c) j' r'
  = if decide (j = j' ∧ r = r') then c else GetBinContent2 h j' r'.
Proof.
  intros Hwf Hj Hr Hj' Hr'.
  pose proof (SetBinContent2_shape h j r c) as Hshape.
  pose proof (same_shape_wf2 _ _ Hshape Hwf) as Hwf'.
  destruct Hshape as (HX&HY&_).
  rewrite GetBinContent2_lookup by (rewrite ?HX, ?HY; done).
  rewrite HX. unfold SetBinContent2, SetBinContent; simpl.
  rewrite GetBin_in_range by done.
  case_decide as Hsame.
  - destruct Hsame as [-> ->].
    rewrite list_lookup_insert_eq; [done|]. by apply cell_index_lt.
  - rewrite list_lookup_insert_ne.
    + by rewrite GetBinContent2_lookup.
    + intros Heq. apply Hsame. by eapply cell_index_inj.
Qed.

(** One row of the fill, over any list of distinct in-range columns [js]:
    the shape is kept, the cells [(j, ctau_idx + 1)] with [j] in [js] get
    the bins of [hist], every other cell is kept. *)
Lemma fill_cols_spec (ctau_idx : nat) hist (hist_2d : TH1) (js : list nat) :
  wf2 hist_2d → ctau_idx + 1 ≤ GetNbinsY hist_2d + 1 →
  Forall (λ j, j ≤ GetNbinsX hist_2d + 1) js →
  let h' := fold_left (Grid.fill_cell ctau_idx hist) js hist_2d in
  same_shape hist_2d h'
  ∧ fXaxis h' = fXaxis hist_2d ∧ fYaxis h' = fYaxis hist_2d
  ∧ ∀ j r, j ≤ GetNbinsX hist_2d + 1 → r ≤ GetNbinsY hist_2d + 1 →
      GetBinContent2 h' j r
      = if decide (j ∈ js ∧ r = ctau_idx + 1) then GetBinContent hist j
        else GetBinContent2 hist_2d j r.
Proof.
  intros Hwf Hrow. induction js as [|j0 js IH] using rev_ind; intros Hjs h'.
  - subst h'; cbn [fold_left]. split; [done|]. split; [done|]. split; [done|].
    intros j r _ _.
    case_decide as Hin; [|done]. destruct Hin as [Hin _]. by apply elem_of_nil in Hin.
  - apply Forall_app in Hjs as [Hjs Hj0]. apply Forall_inv in Hj0.
    destruct (IH Hjs) as (Hshape & HX & HY & Hcells). clear IH.
    simpl in Hj0. subst h'. rewrite fold_left_app. cbn [fold_left].
    set (h1 := fold_left _ js hist_2d) in *. unfold Grid.fill_cell.
    pose proof (same_shape_wf2 _ _ Hshape Hwf) as Hwf1.
    pose proof Hshape as (HnX & HnY & _).
    split; [|split; [|split]].
    + eapply same_shape_trans; [done|]. apply SetBinContent2_shape.
    + done.
    + done.
    + intros j r Hj Hr.
      rewrite GetBinContent2_SetBinContent2 by (rewrite ?HnX, ?HnY; done).
      rewrite Hcells by done.
      destruct (decide (j0 = j ∧ ctau_idx + 1 = r)) as [[-> <-]|Hne].
      * rewrite decide_True; [done|]. split; [|done].
        apply elem_of_app. right. by apply list_elem_of_singleton.
      * destruct (decide (j ∈ js ∧ r = ctau_idx + 1)) as [[Hin ->]|Hnin].
        -- rewrite decide_True; [done|]. split; [|done]. apply elem_of_app. by left.
        -- rewrite decide_False; [done|]. intros [Hin ->].
           apply elem_of_app in Hin as [Hin|Hin]; [by apply Hnin|].
           apply list_elem_of_singleton in Hin as ->. by apply Hne.
Qed.

Lemma fill_row_spec (n_x_bins ctau_idx : nat) hist (hist_2d : TH1) :
  wf2 hist_2d → n_x_bins ≤ GetNbinsX hist_2d → ctau_idx + 1 ≤ GetNbinsY hist_2d →
  let h' := Grid.fill_row n_x_bins ctau_idx hist hist_2d in
  same_shape hist_2d h'
  ∧ fXaxis h' = fXaxis hist_2d ∧ fYaxis h' = fYaxis hist_2d
  ∧ ∀ j r, j ≤ GetNbinsX hist_2d + 1 → r ≤ GetNbinsY hist_2d + 1 →
      GetBinContent2 h' j r
      = if decide (1 ≤ j ≤ n_x_bins ∧ r = ctau_idx + 1) then GetBinContent hist j
        else GetBinContent2 hist_2d j r.
Proof.
  intros Hwf HB Hrow h'.
  destruct (fill_cols_spec ctau_idx hist hist_2d (seq 1 n_x_bins))
    as (Hshape & HX & HY & Hcells); [done|lia| |].
  { apply Forall_forall. intros j Hj%elem_of_seq. lia. }
  split; [done|]. split; [done|]. split; [done|].
  intros j r Hj Hr. subst h'. unfold Grid.fill_row. rewrite Hcells by done.
  destruct (decide (1 ≤ j ≤ n_x_bins ∧ r = ctau_idx + 1)) as [[Hin ->]|Hnin].
  - rewrite decide_True; [done|]. split; [|done]. apply elem_of_seq. lia.
  - rewrite decide_False; [done|]. intros [Hin%elem_of_seq ->]. apply Hnin. lia.
Qed.

Lemma enumerate_fst {A} (l : list A) : (enumerate l).*1 = seq 0 (length l).
Proof. unfold enumerate. apply fst_zip. by rewrite length_seq. Qed.

Lemma elem_of_enumerate {A} (l : list A) (k : nat) (x : A) :
  (k, x) ∈ enumerate l ↔ l !! k = Some x.
Proof.
  unfold enumerate. rewrite list_elem_of_lookup. split.
  - intros [i Hi]. apply lookup_zip_with_Some in Hi as (k' & x' & [= -> ->] & Hk & Hx).
    apply lookup_seq in Hk as [-> _]. done.
  - intros Hx. exists k. apply lookup_zip_with_Some. exists k, x.
    split; [done|]. split; [|done]. apply lookup_seq. split; [done|].
    by eapply lookup_lt_Some.
Qed.

Lemma NoDup_enumerate_fst {A} (l : list A) : NoDup (enumerate l).*1.
Proof. rewrite enumerate_fst. apply NoDup_seq. Qed.

(** The fill loop over any rows with distinct in-range indices: the shape
    and the axes are kept, and row [k + 1] holds the bins of the histogram
    paired with [k]. *)
Lemma fill_rows_spec (n_x_bins : nat) (rows : list (nat * option TH1)) (hist_2d : TH1) :
  wf2 hist_2d → n_x_bins ≤ GetNbinsX hist_2d →
  NoDup rows.*1 → Forall (λ row, row.1 + 1 ≤ GetNbinsY hist_2d) rows →
  let h' := fold_left (Grid.fill_step n_x_bins) rows hist_2d in
  same_shape hist_2d h'
  ∧ fXaxis h' = fXaxis hist_2d ∧ fYaxis h' = fYaxis hist_2d
  ∧ ∀ k hist j, (k, Some hist) ∈ rows → 1 ≤ j ≤ n_x_bins →
      GetBinContent2 h' j (k + 1) = GetBinContent hist j.
Proof.
  intros Hwf HB. induction rows as [|[k0 o0] rows IH] using rev_ind; intros Hdup Hrows h'.
  - subst h'; cbn [fold_left]. split; [done|]. split; [done|]. split; [done|].
    intros k hist j Hin. by apply elem_of_nil in Hin.
  - rewrite fmap_app in Hdup. apply NoDup_app in Hdup as (Hdup & Hfresh & _).
    apply Forall_app in Hrows as [Hrows Hk0]. apply Forall_inv in Hk0. simpl in Hk0.
    destruct (IH Hdup Hrows) as (Hshape & HX & HY & Hcells). clear IH.
    subst h'. rewrite fold_left_app. cbn [fold_left].
    set (h1 := fold_left _ rows hist_2d) in *.
    pose proof (same_shape_wf2 _ _ Hshape Hwf) as Hwf1.
    pose proof Hshape as (HnX & HnY & _).
    assert (Hold : ∀ k hist, (k, Some hist) ∈ rows → k ≠ k0).
    { intros k hist Hin ->. apply (Hfresh k0).
      - apply list_elem_of_fmap. by exists (k0, Some hist).
      - simpl. by apply list_elem_of_singleton. }
    destruct o0 as [hist0|]; unfold Grid.fill_step.
    + destruct (fill_row_spec n_x_bins k0 hist0 h1)
        as (Hshape' & HX' & HY' & Hcells'); [done|lia|lia|].
      split; [by eapply same_shape_trans|]. split; [congruence|]. split; [congruence|].
      intros k hist j Hin Hj. apply elem_of_app in Hin as [Hin|Hin].
      * pose proof (proj1 (Forall_forall _ _) Hrows _ Hin) as Hk. simpl in Hk.
        rewrite Hcells' by lia.
        rewrite decide_False; [by apply Hcells|].
        intros [_ Heq]. apply (Hold k hist Hin). lia.
      * apply list_elem_of_singleton in Hin as [= -> ->].
        rewrite Hcells' by lia. by rewrite decide_True.
    + split; [done|]. split; [done|]. split; [done|].
      intros k hist j Hin Hj. apply elem_of_app in Hin as [Hin|Hin]; [by apply Hcells|].
      by apply list_elem_of_singleton in Hin.
Qed.

Lemma GetBinLabel_SetBinLabel (a : TAxis) (bin : nat) (label : string) :
  1 ≤ bin ≤ fNbins a → GetBinLabel (SetBinLabel a bin label) bin = label.
Proof.
  intros Hbin. unfold GetBinLabel, SetBinLabel.
  rewrite bool_decide_eq_true_2 by done. simpl. by rewrite lookup_insert_eq.
Qed.

Lemma GetBinLabel_SetBinLabel_ne (a : TAxis) (bin bin' : nat) (label : string) :
  bin ≠ bin' → GetBinLabel (SetBinLabel a bin label) bin' = GetBinLabel a bin'.
Proof.
  intros Hne. unfold GetBinLabel, SetBinLabel. case_bool_decide; [|done].
  simpl. by rewrite lookup_insert_ne.
Qed.

Lemma SetBinLabel_fNbins (a : TAxis) (bin : nat) (label : string) :
  fNbins (SetBinLabel a bin label) = fNbins a.
Proof. unfold SetBinLabel. by case_bool_decide. Qed.

(** The labelling loop over any rows with distinct indices: only the
    y-axis labels change, and bin [i + 1] gets the label paired with [i]. *)
Lemma label_rows_spec (rows : list (nat * string)) (hist_2d : TH1) :
  NoDup rows.*1 →
  let h' := fold_left Grid.label_row rows hist_2d in
  same_shape hist_2d h'
  ∧ fArray h' = fArray hist_2d ∧ fXaxis h' = fXaxis hist_2d
  ∧ ∀ i label, (i, label) ∈ rows → i + 1 ≤ GetNbinsY hist_2d →
      GetBinLabel (fYaxis h') (i + 1) = label.
Proof.
  induction rows as [|[i0 label0] rows IH] using rev_ind; intros Hdup h'.
  - subst h'; cbn [fold_left]. split; [done|]. split; [done|]. split; [done|].
    intros i label Hin. by apply elem_of_nil in Hin.
  - rewrite fmap_app in Hdup. apply NoDup_app in Hdup as (Hdup & Hfresh & _).
    destruct (IH Hdup) as (Hshape & HA & HX & Hlabels). clear IH.
    subst h'. rewrite fold_left_app. cbn [fold_left].
    set (h1 := fold_left _ rows hist_2d) in *.
    destruct Hshape as (HnX & HnY & Hlen).
    unfold Grid.label_row, with_Yaxis, same_shape, GetNbinsX, GetNbinsY in *; simpl.
    rewrite SetBinLabel_fNbins.
    split; [done|]. split; [done|]. split; [done|].
    intros i label Hin Hi. apply elem_of_app in Hin as [Hin|Hin].
    + rewrite GetBinLabel_SetBinLabel_ne; [by apply Hlabels|].
      intros Heq. apply (Hfresh i0).
      * apply list_elem_of_fmap. exists (i, label). split; [simpl; lia|done].
      * simpl. by apply list_elem_of_singleton.
    + apply list_elem_of_singleton in Hin as [= -> ->].
      apply GetBinLabel_SetBinLabel. lia.
Qed.

Lemma copy_x_labels_spec (first_hist : TH1) (n_x_bins : nat) (hist_2d : TH1) :
  let h' := Grid.copy_x_labels first_hist n_x_bins hist_2d in
  same_shape hist_2d h' ∧ fArray h' = fArray hist_2d ∧ fYaxis h' = fYaxis hist_2d.
Proof.
  unfold Grid.copy_x_labels. generalize (seq 1 n_x_bins). intros js.
  induction js as [|j0 js IH] using rev_ind; [done|].
  rewrite fold_left_app. cbn [fold_left].
  set (h1 := fold_left _ js hist_2d) in *.
  destruct IH as ((HnX & HnY & Hlen) & HA & HY).
  destruct (String.eqb _ ""); [done|].
  unfold with_Xaxis, same_shape, GetNbinsX, GetNbinsY in *; simpl.
  by rewrite SetBinLabel_fNbins.
Qed.

End GridFacts.

Section GridTheorem.
Import ROOT.


End GridTheorem.

(** ** The loading loop of the grid builder *)

Section GridLoop.
Import ROOT.

Variables (fs : FS) (args : Grid.Args).

(** The events of one turn of the inner loop. *)
Local Abbreviation point_trace decay_type ctau :=
  (trace (Grid.load_one fs args decay_type ctau ([], []))).

Local Abbreviation point_label decay_type :=
  (λ ctau, (λ _ : TH1, Grid.make_label ctau decay_type)
             <$> Grid.try_load fs args decay_type ctau).

Lemma io_bind_return {A B} (t : list event) (a : A) (k : A → IO B) :
  ((t, Return a) ≫= k) = (t ++ (k a).1, (k a).2).
Proof. unfold mbind, io_mbind, io_bind. by destruct (k a). Qed.

Lemma bind_option_list {A B} (f : A → option B) (l : list A) :
  l ≫= (λ x, option_list (f x)) = omap f l.
Proof.
  induction l as [|x l IH]; [done|].
  rewrite bind_cons, IH. simpl. by destruct (f x).
Qed.

Lemma grid_load_histogram_returns (filename hist_name : string) :
  ∃ t o, Grid.load_histogram fs filename hist_name = (t, Return o).
Proof.
  destruct (grid_load_histogram_contract fs filename hist_name) as (o & Hres & _).
  destruct (Grid.load_histogram fs filename hist_name) as [t r].
  exists t, o. simpl in Hres. by rewrite Hres.
Qed.

(** One turn of the inner loop appends the histogram it loads, if any, and
    its label to the loop state. *)
Lemma load_one_state (decay_type ctau : string) (st : Grid.loaded) :
  Grid.load_one fs args decay_type ctau st
  = (point_trace decay_type ctau,
     Return (st.1 ++ option_list (Grid.try_load fs args decay_type ctau),
             st.2 ++ option_list (point_label decay_type ctau))).
Proof.
  unfold Grid.try_load, Grid.load_one.
  destruct (grid_load_histogram_returns
              (Grid.construct_filename (Grid.gluino_mass args) (Grid.neutralino_mass args)
                 ctau decay_type (Grid.era args)) (Grid.hist_name args)) as (t & o & ->).
  destruct st as [hs ls]. destruct o as [h|]; simpl; by rewrite ?app_nil_r.
Qed.



(** A loop whose body appends to the two lists of the loop state appends
    the concatenation of what its turns append. *)
Lemma for_each_append {A} (body : A → Grid.loaded → IO Grid.loaded)
    (tr : A → list event) (r1 : A → list TH1) (r2 : A → list string)
    (l : list A) (st : Grid.loaded) :
  (∀ x st, body x st = (tr x, Return (st.1 ++ r1 x, st.2 ++ r2 x))) →
  for_each l body st = (l ≫= tr, Return (st.1 ++ (l ≫= r1), st.2 ++ (l ≫= r2))).
Proof.
  intros Hbody. revert st. induction l as [|x l IH]; intros st.
  - simpl. destruct st. by rewrite !app_nil_r.
  - cbn [for_each]. rewrite Hbody, io_bind_return, IH. cbn [fst snd].
    by rewrite !bind_cons, !app_assoc.
Qed.

(** The loading loops: the histograms and labels of the points that load,
    decay type by decay type and, within one decay type, in the order of
    the ctau list. *)
Lemma load_all_spec (decay_types ctau_list : list string) :
  Grid.load_all fs args decay_types ctau_list
  = (decay_types ≫= (λ d, ctau_list ≫= (λ c, point_trace d c)),
     Return (decay_types ≫= (λ d, omap (Grid.try_load fs args d) ctau_list),
             decay_types ≫= (λ d, omap (point_label d) ctau_list))).
Proof.
  unfold Grid.load_all.
  rewrite (for_each_append _
             (λ d, ctau_list ≫= (λ c, point_trace d c))
             (λ d, omap (Grid.try_load fs args d) ctau_list)
             (λ d, omap (point_label d) ctau_list)); [done|].
  intros d st.
  rewrite (for_each_append _ (λ c, point_trace d c)
             (λ c, option_list (Grid.try_load fs args d c))
             (λ c, option_list (point_label d c))).
  - by rewrite !bind_option_list.
  - intros c st'. apply load_one_state.
Qed.




End GridLoop.

(** ** Runs of the grid builder *)

Section GridMain.
Import ROOT.

Variables (fs : FS) (args : Grid.Args).


Lemma saved_app (t1 t2 : list event) : saved (t1 ++ t2) = saved t1 ++ saved t2.
Proof. apply omap_app. Qed.





End GridMain.

(** ** Runs of the ratio builder *)

Section RatioMain.
Import ROOT.

Variable py_float : string → option Qc.
Variables (fs : FS) (args : Ratio.Args).


Lemma parse_y_range_None (s : string) :
  Ratio.parse_y_range py_float s = None
  ↔ s ≠ "" ∧ ∃ x, x ∈ PyStr.split "," s ∧ py_float x = None.
Proof.
  unfold Ratio.parse_y_range. destruct (String.eqb s "") eqn:Hs.
  - apply String.eqb_eq in Hs as ->. split; [done|]. intros [Hne _]. by destruct Hne.
  - apply String.eqb_neq in Hs.
    rewrite fmap_None, mapM_None, Exists_exists. split; [by intros; split|by intros [_ ?]].
Qed.


End RatioMain.

(** ** File names *)

Section FileNames.

Lemma string_app_assoc (s1 s2 s3 : string) :
  (s1 +:+ s2) +:+ s3 = s1 +:+ (s2 +:+ s3).
Proof.
  induction s1 as [|c s1 IH]; [done|].
  change (String c ((s1 +:+ s2) +:+ s3) = String c (s1 +:+ (s2 +:+ s3))).
  by rewrite IH.
Qed.

(** C9: both utilities build the same file name, character for character,
    and it is the one of the naming convention, the decay-length string
    being [<decayLength><unit>] and the decay-channel string
    [<channel>Decay]. *)
Theorem construct_filename_convention (gluino_mass neutralino_mass : Z)
    (decayLength unit channel era : string) :
  Ratio.construct_filename gluino_mass neutralino_mass
    (decayLength +:+ unit) (channel +:+ "Decay") era
  = filename_convention (pretty gluino_mass) (pretty neutralino_mass)
      decayLength unit channel era
  ∧ ∀ ctau decay_type,
      Grid.construct_filename gluino_mass neutralino_mass ctau decay_type era
      = Ratio.construct_filename gluino_mass neutralino_mass ctau decay_type era.
Proof.
  split; [|reflexivity].
  unfold Ratio.construct_filename, filename_convention.
  by rewrite !string_app_assoc.
Qed.

Example construct_filename_default :
  Ratio.construct_filename 1800 1300 "0p1mm" "lightDecay" Sample.era = Sample.file
  ∧ Grid.construct_filename 1800 1300 "1mm" "heavyDecay" Sample.era
    = Sample.file_heavy_1mm.
Proof. by vm_compute. Qed.

End FileNames.

(** ** The theorems at the sample inputs *)

Section Samples.
Import ROOT.



(** The labels of the sample grid run: the lightDecay row, then the
    heavyDecay row. *)
Example grid_labels_sample :
  ∃ histograms,
    result (Grid.load_all Sample.fs_grid Sample.grid_args
              (Grid.decay_type_list Sample.grid_args)
              (Grid.parse_ctau_list (Grid.ctaus Sample.grid_args)))
    = Return (histograms, ["0.1 (L)"; "1 (H)"])
    ∧ fName <$> histograms
      = ["EventCutFlow_gluino1800_chi101300_0p1mm_lightDecay_130X_mcRun3_2023_realistic_postBPix_v2";
         "EventCutFlow_gluino1800_chi101300_1mm_heavyDecay_130X_mcRun3_2023_realistic_postBPix_v2"].
Proof. eexists. split; vm_compute; reflexivity. Qed.

(** The sample grid run: the two missing points are skipped, one file is
    saved. *)
Example grid_main_sample :
  exit_status (Grid.main Sample.fs_grid Sample.grid_args) = 0%Z
  ∧ saved_files (Grid.main Sample.fs_grid Sample.grid_args)
    = ["/eos/user/c/cthompso/analysis/CMSSW_15_0_16/src/plots/2D_EventCutFlow_gluino1800_chi101300_both_0p1mm_1mm.pdf"]
  ∧ Print (WarnSkipping "1mm" "lightDecay")
    ∈ trace (Grid.main Sample.fs_grid Sample.grid_args).
Proof.
  split; [by vm_compute|]. split; [by vm_compute|].
  apply list_elem_of_lookup. exists 5. by vm_compute.
Qed.

(** Nothing to load: status 1 and no file. *)
Example grid_main_empty :
  exit_status (Grid.main ∅ Sample.grid_args) = 1%Z
  ∧ saved_files (Grid.main ∅ Sample.grid_args) = [].
Proof. by vm_compute. Qed.

(** The sample ratio runs: one file saved; a malformed [--y-range] or a
    missing denominator file gives status 1 and no file. *)
Example ratio_main_sample :
  exit_status (Ratio.main Sample.py_float Sample.fs_grid (Sample.ratio_args "1,0.1,0.01"))
  = 0%Z
  ∧ saved_files (Ratio.main Sample.py_float Sample.fs_grid (Sample.ratio_args "1,0.1,0.01"))
    = ["/eos/user/c/cthompso/analysis/CMSSW_15_0_16/src/plots/ratio_EventCutFlow_gluino1800_chi101300_0p1mm_vs_10000mm_lightDecay.pdf"].
Proof. by vm_compute. Qed.

Example ratio_main_malformed :
  exit_status (Ratio.main Sample.py_float Sample.fs_grid (Sample.ratio_args "1,x")) = 1%Z
  ∧ saved_files (Ratio.main Sample.py_float Sample.fs_grid (Sample.ratio_args "1,x")) = [].
Proof. by vm_compute. Qed.

Example ratio_main_missing :
  exit_status (Ratio.main Sample.py_float Sample.fs_first (Sample.ratio_args "1,0.1")) = 1%Z
  ∧ saved_files (Ratio.main Sample.py_float Sample.fs_first (Sample.ratio_args "1,0.1")) = [].
Proof. by vm_compute. Qed.

(** An empty [--y-range] is no range at all: the run goes through. *)
Example ratio_main_no_range :
  exit_status (Ratio.main Sample.py_float Sample.fs_grid (Sample.ratio_args "")) = 0%Z.
Proof. by vm_compute. Qed.

(** The worked example of the specification: bins 100, 50, 25, 10 normalize
    to 1, 1/2, 1/4, 1/10, and dividing by 1, 2/5, 1/5, 1/20 gives 1, 5/4,
    5/4, 2. *)
Example normalize_sample :
  ∃ h, Ratio.normalize "n" "f" Sample.counts = ([], Return h)
       ∧ this <$> fArray h = [0; 1; 1 # 2; 1 # 4; 1 # 10; 0]%Q.
Proof. eexists. split; vm_compute; reflexivity. Qed.

Example ratio_sample :
  ∃ ratio,
    Ratio.create_ratio_plot (Some Sample.numerator) (Some Sample.denominator_spec) "t"
    = ([], Return (Some ratio))
    ∧ this <$> fArray ratio = [0; 1; 5 # 4; 5 # 4; 2; 0]%Q.
Proof. eexists. split; vm_compute; reflexivity. Qed.

(** A denominator bin that is 0 gives a ratio bin that is 0. *)
Example ratio_zero_sample :
  ∃ ratio,
    Ratio.create_ratio_plot (Some Sample.numerator) (Some Sample.denominator) "t"
    = ([], Return (Some ratio))
    ∧ this <$> fArray ratio = [0; 1; 5 # 4; 5 # 4; 0; 0]%Q.
Proof. eexists. split; vm_compute; reflexivity. Qed.

(** The sample grid: two rows of four columns. *)
Example grid_sample :
  ∃ hist_2d,
    Grid.create_2d_histogram (Some <$> [Sample.counts; Sample.numerator])
      ["0.1 (L)"; "1 (H)"] "EventCutFlow"
    = ([], Return (Some hist_2d))
    ∧ this <$> ((λ j, GetBinContent2 hist_2d j 1) <$> [1; 2; 3; 4])
      = [100; 50; 25; 10]%Q
    ∧ this <$> ((λ j, GetBinContent2 hist_2d j 2) <$> [1; 2; 3; 4])
      = [1; 1 # 2; 1 # 4; 1 # 10]%Q
    ∧ GetBinLabel (fYaxis hist_2d) <$> [1; 2] = ["0.1 (L)"; "1 (H)"].
Proof. eexists. repeat split; vm_compute; reflexivity. Qed.

Example split_ctaus :
  PyStr.split "," "0p1mm, 1mm,10mm" = ["0p1mm"; " 1mm"; "10mm"].
Proof. reflexivity. Qed.

Example split_empty : PyStr.split "," "" = [""].
Proof. reflexivity. Qed.

Example strip_blank : PyStr.strip "  1mm " = "1mm".
Proof. reflexivity. Qed.

Example replace_root :
  PyStr.replace ".root" "" "gluino1800_chi101300.root" = "gluino1800_chi101300".
Proof. reflexivity. Qed.

Example replace_mm_p :
  PyStr.replace "p" "." (PyStr.replace "mm" "" "0p1mm") = "0.1".
Proof. reflexivity. Qed.

Example replace_no_overlap : PyStr.replace "mm" "x" "mmm" = "xm".
Proof. reflexivity. Qed.

Example lower_both : PyStr.lower "BoTH" = "both".
Proof. reflexivity. Qed.

Example format_labels :
  Ratio.format_ctau_label "0p1mm" "lightDecay" = "c\tau = 0.1 mm (L)"
  ∧ Ratio.format_ctau_label "10000mm" "heavyDecay" = "c\tau = 10k mm (H)"
  ∧ Grid.make_label "1000mm" "heavyDecay" = "1k (H)"
  ∧ Grid.make_label "0p1mm" "lightDecay" = "0.1 (L)".
Proof. by vm_compute. Qed.

End Samples.

(** ** The [--y-range] flag *)

Section YRange.


End YRange.

(** ** More on the two loaders *)

Section LoaderContracts.
Import ROOT.

Implicit Types (fs : FS) (filename hist_name : string).

Lemma clone_name_nonempty (hist_name rest : string) :
  String.eqb (hist_name +:+ "_" +:+ rest) "" = false.
Proof. by destruct hist_name. Qed.


(** What the ratio builder's loader finds in a readable file: the histogram
    under the first prefix, else the one under the second. *)
Lemma ratio_load_found fs filename hist_name keys h :
  fs !! path_join ntuples_dir filename = Some (RootFile keys) →
  keys !! ("HSCPMiniAODAnalyzer/" +:+ hist_name) = Some h
  ∨ (keys !! ("HSCPMiniAODAnalyzer/" +:+ hist_name) = None
     ∧ keys !! ("HSCPFullAODAnalyzer/" +:+ hist_name) = Some h) →
  Ratio.load_histogram fs filename hist_name
  = (hist_clone ←
       Ratio.normalize
         (match keys !! ("HSCPMiniAODAnalyzer/" +:+ hist_name) with
          | Some _ => "HSCPMiniAODAnalyzer/" +:+ hist_name
          | None => "HSCPFullAODAnalyzer/" +:+ hist_name
          end) filename
         (mkTH1 (hist_name +:+ "_" +:+ PyStr.replace ".root" "" filename)
                (fTitle h) (fXaxis h) (fYaxis h) (fZaxisTitle h) (fArray h) None);
     mret (Some hist_clone)).
Proof.
  intros Hfile Hfound. unfold Ratio.load_histogram, Get. rewrite Hfile.
  destruct Hfound as [Hfirst|[Hfirst Hsecond]].
  - rewrite Hfirst. simpl. unfold Clone, SetDirectory. simpl.
    by rewrite clone_name_nonempty.
  - rewrite Hfirst, Hsecond. simpl. unfold Clone, SetDirectory. simpl.
    by rewrite clone_name_nonempty.
Qed.


(** Loading with the ratio builder a stored histogram whose first bin is
    zero or negative: the cells come back as stored, and the one message is
    the zero-events warning, naming the prefix the histogram was found
    under. *)
Theorem ratio_load_not_normalized fs filename hist_name keys h :
  fs !! path_join ntuples_dir filename = Some (RootFile keys) →
  keys !! ("HSCPMiniAODAnalyzer/" +:+ hist_name) = Some h
  ∨ (keys !! ("HSCPMiniAODAnalyzer/" +:+ hist_name) = None
     ∧ keys !! ("HSCPFullAODAnalyzer/" +:+ hist_name) = Some h) →
  (GetBinContent h 1 <= 0)%Qc →
  ∃ h',
    Ratio.load_histogram fs filename hist_name
    = ([Print (WarnZeroEvents
                 (match keys !! ("HSCPMiniAODAnalyzer/" +:+ hist_name) with
                  | Some _ => "HSCPMiniAODAnalyzer/" +:+ hist_name
                  | None => "HSCPFullAODAnalyzer/" +:+ hist_name
                  end) filename)],
       Return (Some h'))
    ∧ fArray h' = fArray h
    ∧ fXaxis h' = fXaxis h
    ∧ fDirectory h' = None.
Proof.
  intros Hfile Hfound HV. rewrite (ratio_load_found _ _ _ _ _ Hfile Hfound).
  unfold Ratio.normalize.
  rewrite bool_decide_eq_false_2.
  - eexists. split; [reflexivity|]. done.
  - change (¬ (0 < GetBinContent h 1)%Qc). by apply Qcle_not_lt.
Qed.


End LoaderContracts.

Section LoaderContractsSamples.
Import ROOT.


Lemma ratio_load_not_normalized_witness :
  ∃ h',
    Ratio.load_histogram Sample.fs_empty_counts Sample.file "EventCutFlow"
    = ([Print (WarnZeroEvents
                 (match ({[ "HSCPFullAODAnalyzer/EventCutFlow" := Sample.empty_counts ]}
                           : gmap string TH1)
                        !! ("HSCPMiniAODAnalyzer/" +:+ "EventCutFlow") with
                  | Some _ => "HSCPMiniAODAnalyzer/" +:+ "EventCutFlow"
                  | None => "HSCPFullAODAnalyzer/" +:+ "EventCutFlow"
                  end) Sample.file)],
       Return (Some h'))
    ∧ fArray h' = fArray Sample.empty_counts
    ∧ fXaxis h' = fXaxis Sample.empty_counts
    ∧ fDirectory h' = None.
Proof.
  apply (ratio_load_not_normalized Sample.fs_empty_counts Sample.file "EventCutFlow"
           {[ "HSCPFullAODAnalyzer/EventCutFlow" := Sample.empty_counts ]}
           Sample.empty_counts).
  - by vm_compute.
  - right. split; by vm_compute.
  - discriminate.
Defined.

End LoaderContractsSamples.

(** ** More on the ratio histogram *)

Section RatioMore.
Import ROOT.


Lemma create_ratio_plot_cells (hist1 hist2 : TH1) (title : string) :
  wf1 hist1 → wf1 hist2 → GetNbinsX hist1 = GetNbinsX hist2 →
  ∃ ratio,
    Ratio.create_ratio_plot (Some hist1) (Some hist2) title = ([], Return (Some ratio))
    ∧ fXaxis ratio = fXaxis hist1
    ∧ ∀ i, GetBinContent ratio i
           = divide_cell (GetBinContent hist1 i) (GetBinContent hist2 i).
Proof.
  intros Hwf1 Hwf2 Hbins. eexists. split; [reflexivity|]. split.
  - unfold Divide. by case_bool_decide.
  - intros i.
    change (GetBinContent
              (Divide (SetTitle (Clone None hist1
                         ("ratio_" +:+ fName hist1 +:+ "_" +:+ fName hist2)) title)
                      hist2) i
            = divide_cell (GetBinContent hist1 i) (GetBinContent hist2 i)).
    by rewrite GetBinContent_Divide.
Qed.

(** When the two histograms do not have the same number of bins, the
    library refuses the division and [create_ratio_plot] does not notice:
    it still returns a histogram, without a message, and its cells are the
    numerator's. *)
Theorem create_ratio_plot_mismatch (hist1 hist2 : TH1) (title : string) :
  wf1 hist1 → wf1 hist2 → GetNbinsX hist1 ≠ GetNbinsX hist2 →
  ∃ ratio,
    Ratio.create_ratio_plot (Some hist1) (Some hist2) title = ([], Return (Some ratio))
    ∧ fArray ratio = fArray hist1
    ∧ fXaxis ratio = fXaxis hist1.
Proof.
  intros _ _ Hbins. eexists. split; [reflexivity|].
  unfold Divide. rewrite bool_decide_eq_false_2; [done|].
  intros [Heq _]. by apply Hbins.
Qed.

(** The ratio of a histogram to itself is 1 in every cell that is not 0,
    and 0 in the others. *)
Theorem create_ratio_plot_self (hist : TH1) (title : string) :
  wf1 hist →
  ∃ ratio,
    Ratio.create_ratio_plot (Some hist) (Some hist) title = ([], Return (Some ratio))
    ∧ ∀ i, GetBinContent ratio i
           = if nonzero (GetBinContent hist i) then 1%Qc else 0%Qc.
Proof.
  intros Hwf.
  destruct (create_ratio_plot_cells hist hist title Hwf Hwf eq_refl)
    as (ratio & Hrun & _ & Hcells).
  exists ratio. split; [done|]. intros i. rewrite Hcells. unfold divide_cell.
  destruct (nonzero (GetBinContent hist i)) eqn:Hnz; [|done].
  apply nonzero_spec in Hnz. by field.
Qed.




Lemma create_ratio_plot_mismatch_witness :
  ∃ ratio,
    Ratio.create_ratio_plot (Some Sample.counts) (Some Sample.short_counts) "t"
    = ([], Return (Some ratio))
    ∧ fArray ratio = fArray Sample.counts
    ∧ fXaxis ratio = fXaxis Sample.counts.
Proof.
  apply (create_ratio_plot_mismatch Sample.counts Sample.short_counts "t").
  - split; [apply le_S, le_S, le_S, le_n | reflexivity].
  - split; [apply le_S, le_n | reflexivity].
  - discriminate.
Defined.

Lemma create_ratio_plot_self_witness :
  ∃ ratio,
    Ratio.create_ratio_plot (Some Sample.denominator) (Some Sample.denominator) "t"
    = ([], Return (Some ratio))
    ∧ ∀ i, GetBinContent ratio i
           = if nonzero (GetBinContent Sample.denominator i) then 1%Qc else 0%Qc.
Proof.
  apply (create_ratio_plot_self Sample.denominator "t").
  split; [apply le_S, le_S, le_S, le_n | reflexivity].
Defined.




End RatioMore.

(** ** More on the grid histogram *)

Section GridMore.
Import ROOT.

Lemma GetBinContent2_ext (h h' : TH1) (j r : nat) :
  GetNbinsX h' = GetNbinsX h → GetNbinsY h' = GetNbinsY h → fArray h' = fArray h →
  GetBinContent2 h' j r = GetBinContent2 h j r.
Proof.
  intros HX HY HA. unfold GetBinContent2, GetBinContent, GetBin, fNcells.
  by rewrite HX, HY, HA.
Qed.

Lemma TH2F_empty name title nx xlow xup ny ylow yup (j r : nat) :
  GetBinContent2 (TH2F name title nx xlow xup ny ylow yup) j r = 0%Qc.
Proof.
  unfold GetBinContent2, GetBinContent, TH2F; simpl.
  destruct (replicate _ _ !! _) as [c|] eqn:Hc; [|done].
  by apply lookup_replicate in Hc as [-> _].
Qed.

(** The fill loop leaves alone every cell that is not in a filled row and
    in the columns [1 .. n_x_bins]. *)
Lemma fill_rows_miss (n_x_bins : nat) (rows : list (nat * option TH1)) (hist_2d : TH1) :
  wf2 hist_2d → n_x_bins ≤ GetNbinsX hist_2d →
  Forall (λ row, row.1 + 1 ≤ GetNbinsY hist_2d) rows →
  let h' := fold_left (Grid.fill_step n_x_bins) rows hist_2d in
  same_shape hist_2d h'
  ∧ ∀ j r, j ≤ GetNbinsX hist_2d + 1 → r ≤ GetNbinsY hist_2d + 1 →
      (∀ k hist, (k, Some hist) ∈ rows → ¬ (1 ≤ j ≤ n_x_bins ∧ r = k + 1)) →
      GetBinContent2 h' j r = GetBinContent2 hist_2d j r.
Proof.
  intros Hwf HB. induction rows as [|[k0 o0] rows IH] using rev_ind; intros Hrows h'.
  - subst h'; cbn [fold_left]. done.
  - apply Forall_app in Hrows as [Hrows Hk0]. apply Forall_inv in Hk0. simpl in Hk0.
    destruct (IH Hrows) as (Hshape & Hcells). clear IH.
    subst h'. rewrite fold_left_app. cbn [fold_left].
    set (h1 := fold_left _ rows hist_2d) in *.
    pose proof (same_shape_wf2 _ _ Hshape Hwf) as Hwf1.
    pose proof Hshape as (HnX & HnY & _).
    destruct o0 as [hist0|]; unfold Grid.fill_step.
    + destruct (fill_row_spec n_x_bins k0 hist0 h1)
        as (Hshape' & _ & _ & Hcells'); [done|lia|lia|].
      split; [by eapply same_shape_trans|].
      intros j r Hj Hr Hmiss. rewrite Hcells' by lia.
      rewrite decide_False.
      * apply Hcells; [done|done|]. intros k hist Hin. apply (Hmiss k hist).
        apply elem_of_app. by left.
      * apply (Hmiss k0 hist0). apply elem_of_app. right.
        by apply list_elem_of_singleton.
    + split; [done|]. intros j r Hj Hr Hmiss. apply Hcells; [done|done|].
      intros k hist Hin. apply (Hmiss k hist). apply elem_of_app. by left.
Qed.

(** The labelling loop leaves alone every bin it has no label for. *)
Lemma label_rows_miss (rows : list (nat * string)) (hist_2d : TH1) (bin : nat) :
  (∀ i label, (i, label) ∈ rows → bin ≠ i + 1) →
  GetBinLabel (fYaxis (fold_left Grid.label_row rows hist_2d)) bin
  = GetBinLabel (fYaxis hist_2d) bin.
Proof.
  induction rows as [|[i0 label0] rows IH] using rev_ind; intros Hmiss; [done|].
  rewrite fold_left_app. cbn [fold_left]. unfold Grid.label_row at 1. simpl.
  rewrite GetBinLabel_SetBinLabel_ne.
  - apply IH. intros i label Hin. apply (Hmiss i label). apply elem_of_app. by left.
  - intros Heq. apply (Hmiss i0 label0); [|done]. apply elem_of_app. right.
    by apply list_elem_of_singleton.
Qed.

(** The x axis after copying the labels of [first_hist]: same range and
    title as before, and on the bins [1 .. n_x_bins] the labels of
    [first_hist], provided the axis had no label to begin with. *)
Lemma copy_x_labels_axis (first_hist : TH1) (n_x_bins : nat) (hist_2d : TH1) :
  n_x_bins ≤ GetNbinsX hist_2d →
  (∀ j, GetBinLabel (fXaxis hist_2d) j = "") →
  let a := fXaxis (Grid.copy_x_labels first_hist n_x_bins hist_2d) in
  fXmin a = fXmin (fXaxis hist_2d) ∧ fXmax a = fXmax (fXaxis hist_2d)
  ∧ fAxisTitle a = fAxisTitle (fXaxis hist_2d)
  ∧ ∀ j, 1 ≤ j ≤ n_x_bins →
      GetBinLabel a j = GetBinLabel (fXaxis first_hist) j.
Proof.
  intros HB Hnone. unfold Grid.copy_x_labels.
  assert (Hgen : ∀ js : list nat,
    Forall (λ j, 1 ≤ j ≤ GetNbinsX hist_2d) js →
    let h' := fold_left
      (λ hist_2d x_bin,
         let bin_label := GetBinLabel (fXaxis first_hist) x_bin in
         if String.eqb bin_label "" then hist_2d
         else with_Xaxis hist_2d (SetBinLabel (fXaxis hist_2d) x_bin bin_label))
      js hist_2d in
    fNbins (fXaxis h') = fNbins (fXaxis hist_2d)
    ∧ fXmin (fXaxis h') = fXmin (fXaxis hist_2d)
    ∧ fXmax (fXaxis h') = fXmax (fXaxis hist_2d)
    ∧ fAxisTitle (fXaxis h') = fAxisTitle (fXaxis hist_2d)
    ∧ ∀ j, GetBinLabel (fXaxis h') j
           = if decide (j ∈ js) then GetBinLabel (fXaxis first_hist) j else "").
  { induction js as [|j0 js IH] using rev_ind; intros Hjs h'.
    - subst h'. cbn [fold_left]. repeat (split; [done|]). intros j.
      rewrite decide_False; [apply Hnone|]. by intros ?%elem_of_nil.
    - apply Forall_app in Hjs as [Hjs Hj0]. apply Forall_inv in Hj0.
      destruct (IH Hjs) as (HN & Hmin & Hmax & Htitle & Hlabels). clear IH.
      subst h'. rewrite fold_left_app. cbn [fold_left].
      set (h1 := fold_left _ js hist_2d) in *.
      destruct (String.eqb (GetBinLabel (fXaxis first_hist) j0) "") eqn:Hempty.
      + apply String.eqb_eq in Hempty.
        repeat (split; [done|]). intros j. rewrite Hlabels.
        destruct (decide (j = j0)) as [->|Hne].
        * rewrite (decide_True (P := j0 ∈ js ++ [j0])).
          2: { apply elem_of_app. right. by apply list_elem_of_singleton. }
          rewrite Hempty. by case_decide.
        * destruct (decide (j ∈ js)) as [Hin|Hnin].
          -- rewrite decide_True; [done|]. apply elem_of_app. by left.
          -- rewrite decide_False; [done|]. intros [?|?%list_elem_of_singleton]%elem_of_app;
               done.
      + unfold with_Xaxis; simpl. unfold SetBinLabel.
        rewrite bool_decide_eq_true_2 by (unfold GetNbinsX in *; lia). simpl.
        repeat (split; [done|]). intros j. unfold GetBinLabel; simpl.
        destruct (decide (j = j0)) as [->|Hne].
        * rewrite lookup_insert_eq. simpl.
          rewrite decide_True; [done|]. apply elem_of_app. right.
          by apply list_elem_of_singleton.
        * rewrite lookup_insert_ne by done.
          change (default "" (fLabels (fXaxis h1) !! j))
            with (GetBinLabel (fXaxis h1) j).
          rewrite Hlabels.
          destruct (decide (j ∈ js)) as [Hin|Hnin].
          -- rewrite decide_True; [done|]. apply elem_of_app. by left.
          -- rewrite decide_False; [done|]. intros [?|?%list_elem_of_singleton]%elem_of_app;
               done. }
  destruct (Hgen (seq 1 n_x_bins)) as (_ & Hmin & Hmax & Htitle & Hlabels).
  { apply Forall_forall. intros j Hj%elem_of_seq. lia. }
  cbv zeta. split; [done|]. split; [done|]. split; [done|].
  intros j Hj. rewrite Hlabels. rewrite decide_True; [done|]. apply elem_of_seq. lia.
Qed.

Lemma fold_left_preserves {A B} (P : A → Prop) (f : A → B → A) (l : list B) (a : A) :
  P a → (∀ a b, P a → P (f a b)) → P (fold_left f l a).
Proof.
  intros Ha Hstep. revert a Ha. induction l as [|b l IH]; intros a Ha; [done|].
  simpl. apply IH. by apply Hstep.
Qed.

(** The three loops of [create_2d_histogram] change neither the name, the
    title nor the range of the y axis. *)
Lemma loops_keep_frame (first_hist : TH1) (n_x_bins : nat)
    (ctau_labels : list string) (histograms : list (option TH1)) (hist_2d : TH1) :
  let h' := Grid.fill n_x_bins histograms
              (Grid.set_y_labels ctau_labels
                 (Grid.copy_x_labels first_hist n_x_bins hist_2d)) in
  fName h' = fName hist_2d ∧ fTitle h' = fTitle hist_2d
  ∧ fXmin (fYaxis h') = fXmin (fYaxis hist_2d)
  ∧ fXmax (fYaxis h') = fXmax (fYaxis hist_2d).
Proof.
  set (P := λ h : TH1,
         fName h = fName hist_2d ∧ fTitle h = fTitle hist_2d
         ∧ fXmin (fYaxis h) = fXmin (fYaxis hist_2d)
         ∧ fXmax (fYaxis h) = fXmax (fYaxis hist_2d)).
  change (P (Grid.fill n_x_bins histograms
               (Grid.set_y_labels ctau_labels
                  (Grid.copy_x_labels first_hist n_x_bins hist_2d)))).
  unfold Grid.fill, Grid.set_y_labels, Grid.copy_x_labels.
  apply fold_left_preserves; [apply fold_left_preserves; [apply fold_left_preserves|]|].
  - done.
  - intros h j Hh. by destruct (String.eqb _ "").
  - intros h [i label] (?&?&?&?). unfold P, Grid.label_row, with_Yaxis, SetBinLabel.
    simpl. by case_bool_decide.
  - intros h [k [hist|]] Hh; [|done]. unfold Grid.fill_step, Grid.fill_row.
    apply fold_left_preserves; [done|]. by intros h' j Hh'.
Qed.

(** Everything about the grid built from a list whose first histogram is
    not null. *)
Lemma create_2d_histogram_full (first_hist : TH1) (rest : list (option TH1))
    (ctau_labels : list string) (hist_name : string) :
  1 ≤ GetNbinsX first_hist →
  let histograms := Some first_hist :: rest in
  let B := GetNbinsX first_hist in
  let N := length histograms in
  ∃ hist_2d,
    Grid.create_2d_histogram histograms ctau_labels hist_name
    = ([], Return (Some hist_2d))
    ∧ (GetNbinsX hist_2d = B ∧ GetNbinsY hist_2d = N)
    ∧ (∀ k hist j, histograms !! k = Some (Some hist) → 1 ≤ j ≤ B →
         GetBinContent2 hist_2d j (k + 1) = GetBinContent hist j)
    ∧ (∀ j r, j ≤ B + 1 → r ≤ N + 1 →
         (∀ k hist, histograms !! k = Some (Some hist) → ¬ (1 ≤ j ≤ B ∧ r = k + 1)) →
         GetBinContent2 hist_2d j r = 0%Qc)
    ∧ (∀ k, k < N → GetBinLabel (fYaxis hist_2d) (k + 1) = default "" (ctau_labels !! k))
    ∧ (fXmin (fXaxis hist_2d) = fXmin (fXaxis first_hist)
       ∧ fXmax (fXaxis hist_2d) = fXmax (fXaxis first_hist)
       ∧ fAxisTitle (fXaxis hist_2d) = fAxisTitle (fXaxis first_hist)
       ∧ ∀ j, 1 ≤ j ≤ B →
           GetBinLabel (fXaxis hist_2d) j = GetBinLabel (fXaxis first_hist) j)
    ∧ (fXmin (fYaxis hist_2d) = 0%Qc ∧ fXmax (fYaxis hist_2d) = nat_to_Qc N
       ∧ fAxisTitle (fYaxis hist_2d) = "ctau [mm] (Decay Type)"
       ∧ fZaxisTitle hist_2d = "Counts"
       ∧ fName hist_2d = "2D_" +:+ hist_name ∧ fTitle hist_2d = "2D " +:+ hist_name).
Proof.
  intros HB histograms B N.
  eexists. split; [reflexivity|].
  fold histograms. fold B. fold N.
  set (base := TH2F _ _ B _ _ N _ _).
  destruct (TH2F_shape ("2D_" +:+ hist_name) ("2D " +:+ hist_name) B
              (fXmin (fXaxis first_hist)) (fXmax (fXaxis first_hist)) N 0%Qc
              (nat_to_Qc N)) as (HbX & HbY & Hbwf); [done|subst N; simpl; lia|].
  fold base in HbX, HbY, Hbwf.
  destruct (copy_x_labels_spec first_hist B base) as (Hs1 & HA1 & HY1).
  destruct (copy_x_labels_axis first_hist B base) as (Hmin1 & Hmax1 & Htitle1 & Hxlab);
    [lia|done|].
  set (h1 := Grid.copy_x_labels first_hist B base) in *.
  destruct (label_rows_spec (enumerate ctau_labels) h1) as (Hs2 & HA2 & HX2 & Hlab);
    [apply NoDup_enumerate_fst|].
  pose proof (label_rows_miss (enumerate ctau_labels) h1) as Hlabmiss.
  fold (Grid.set_y_labels ctau_labels h1) in Hs2, HA2, HX2, Hlab, Hlabmiss.
  set (h2 := Grid.set_y_labels ctau_labels h1) in *.
  pose proof (same_shape_trans _ _ _ Hs1 Hs2) as Hs12.
  pose proof (same_shape_wf2 _ _ Hs12 Hbwf) as Hwf2.
  pose proof Hs12 as (HnX2 & HnY2 & _). pose proof Hs1 as (HnX1 & HnY1 & _).
  assert (Hrows : Forall (λ row : nat * option TH1, row.1 + 1 ≤ GetNbinsY h2)
                    (enumerate histograms)).
  { apply Forall_forall. intros [k o] Hin%elem_of_enumerate. simpl.
    apply lookup_lt_Some in Hin. fold N in Hin. lia. }
  destruct (fill_rows_spec B (enumerate histograms) h2)
    as (Hs3 & HX3 & HY3 & Hcells); [done|lia|apply NoDup_enumerate_fst|done|].
  destruct (fill_rows_miss B (enumerate histograms) h2) as (_ & Hmiss); [done|lia|done|].
  fold (Grid.fill B histograms h2) in Hs3, HX3, HY3, Hcells, Hmiss.
  set (h3 := Grid.fill B histograms h2) in *.
  destruct Hs3 as (HnX3 & HnY3 & _).
  assert (Hzero : ∀ j r, GetBinContent2 h2 j r = 0%Qc).
  { intros j r. rewrite (GetBinContent2_ext base h2) by congruence.
    apply TH2F_empty. }
  split; [split|split; [|split; [|split; [|split]]]].
  - change (GetNbinsX h3 = B). lia.
  - change (GetNbinsY h3 = N). lia.
  - intros k hist j Hk Hj.
    change (GetBinContent2 h3 j (k + 1) = GetBinContent hist j).
    apply Hcells; [|done]. by apply elem_of_enumerate.
  - intros j r Hj Hr Hnot.
    change (GetBinContent2 h3 j r = 0%Qc).
    rewrite Hmiss; [apply Hzero|lia|lia|].
    intros k hist Hin%elem_of_enumerate. by apply (Hnot k hist).
  - intros k Hk.
    change (GetBinLabel (fYaxis h3) (k + 1) = default "" (ctau_labels !! k)).
    rewrite HY3. destruct (ctau_labels !! k) as [label|] eqn:Hl; simpl.
    + apply Hlab; [by apply elem_of_enumerate|]. lia.
    + rewrite Hlabmiss.
      * rewrite HY1. done.
      * intros i label Hin%elem_of_enumerate Heq.
        assert (i = k) as -> by lia. congruence.
  - change (fXmin (fXaxis h3) = fXmin (fXaxis first_hist)
            ∧ fXmax (fXaxis h3) = fXmax (fXaxis first_hist)
            ∧ fAxisTitle (fXaxis first_hist) = fAxisTitle (fXaxis first_hist)
            ∧ ∀ j, 1 ≤ j ≤ B →
                GetBinLabel (fXaxis h3) j = GetBinLabel (fXaxis first_hist) j).
    rewrite HX3, HX2. split; [by rewrite Hmin1|]. split; [by rewrite Hmax1|].
    split; [done|]. exact Hxlab.
  - change (fXmin (fYaxis h3) = 0%Qc ∧ fXmax (fYaxis h3) = nat_to_Qc N
            ∧ "ctau [mm] (Decay Type)" = "ctau [mm] (Decay Type)"
            ∧ "Counts" = "Counts"
            ∧ fName h3 = "2D_" +:+ hist_name ∧ fTitle h3 = "2D " +:+ hist_name).
    destruct (loops_keep_frame first_hist B ctau_labels histograms base)
      as (Hname & Htitle & Hymin & Hymax).
    fold h1 h2 h3 in Hname, Htitle, Hymin, Hymax.
    rewrite Hname, Htitle, Hymin, Hymax. done.
Qed.


(** The underflow and overflow cells of the grid stay empty: the
    underflow and overflow of the input histograms are never copied. *)
Theorem create_2d_histogram_margins (first_hist : TH1) (rest : list (option TH1))
    (ctau_labels : list string) (hist_name : string) :
  1 ≤ GetNbinsX first_hist →
  ∃ hist_2d,
    Grid.create_2d_histogram (Some first_hist :: rest) ctau_labels hist_name
    = ([], Return (Some hist_2d))
    ∧ ∀ j r, j ≤ GetNbinsX first_hist + 1 → r ≤ S (length rest) + 1 →
        j = 0 ∨ j = GetNbinsX first_hist + 1 ∨ r = 0 ∨ r = S (length rest) + 1 →
        GetBinContent2 hist_2d j r = 0%Qc.
Proof.
  intros HB.
  destruct (create_2d_histogram_full first_hist rest ctau_labels hist_name HB)
    as (hist_2d & Hrun & _ & _ & Hmiss & _).
  exists hist_2d. split; [done|]. intros j r Hj Hr Hedge.
  apply Hmiss; [done|done|]. intros k hist Hrow [Hcol Heq].
  apply lookup_lt_Some in Hrow. simpl in Hrow. lia.
Qed.

(** The axes of the grid: the x axis has the range, the title and, on
    every bin, the label of the first histogram's x axis; the y axis runs
    from 0 to the number of rows. *)
Theorem create_2d_histogram_axes (first_hist : TH1) (rest : list (option TH1))
    (ctau_labels : list string) (hist_name : string) :
  1 ≤ GetNbinsX first_hist →
  ∃ hist_2d,
    Grid.create_2d_histogram (Some first_hist :: rest) ctau_labels hist_name
    = ([], Return (Some hist_2d))
    ∧ fXmin (fXaxis hist_2d) = fXmin (fXaxis first_hist)
    ∧ fXmax (fXaxis hist_2d) = fXmax (fXaxis first_hist)
    ∧ fAxisTitle (fXaxis hist_2d) = fAxisTitle (fXaxis first_hist)
    ∧ (∀ j, 1 ≤ j ≤ GetNbinsX first_hist →
         GetBinLabel (fXaxis hist_2d) j = GetBinLabel (fXaxis first_hist) j)
    ∧ fXmin (fYaxis hist_2d) = 0%Qc
    ∧ fXmax (fYaxis hist_2d) = nat_to_Qc (S (length rest)).
Proof.
  intros HB.
  destruct (create_2d_histogram_full first_hist rest ctau_labels hist_name HB)
    as (hist_2d & Hrun & _ & _ & _ & _ & (Hmin & Hmax & Htitle & Hlab)
        & (Hymin & Hymax & _)).
  exists hist_2d. done.
Qed.

End GridMore.

Section GridMoreSamples.
Import ROOT.


Lemma create_2d_histogram_margins_witness :
  ∃ hist_2d,
    Grid.create_2d_histogram
      (Some Sample.labelled_counts :: [None; Some Sample.short_counts])
      ["0.1 (L)"] "EventCutFlow"
    = ([], Return (Some hist_2d))
    ∧ ∀ j r, j ≤ GetNbinsX Sample.labelled_counts + 1 →
        r ≤ S (length [None; Some Sample.short_counts]) + 1 →
        j = 0 ∨ j = GetNbinsX Sample.labelled_counts + 1 ∨ r = 0
        ∨ r = S (length [None; Some Sample.short_counts]) + 1 →
        GetBinContent2 hist_2d j r = 0%Qc.
Proof.
  apply (create_2d_histogram_margins Sample.labelled_counts
           [None; Some Sample.short_counts] ["0.1 (L)"] "EventCutFlow").
  apply le_S, le_S, le_n.
Defined.

Lemma create_2d_histogram_axes_witness :
  ∃ hist_2d,
    Grid.create_2d_histogram
      (Some Sample.labelled_counts :: [None; Some Sample.short_counts])
      ["0.1 (L)"] "EventCutFlow"
    = ([], Return (Some hist_2d))
    ∧ fXmin (fXaxis hist_2d) = fXmin (fXaxis Sample.labelled_counts)
    ∧ fXmax (fXaxis hist_2d) = fXmax (fXaxis Sample.labelled_counts)
    ∧ fAxisTitle (fXaxis hist_2d) = fAxisTitle (fXaxis Sample.labelled_counts)
    ∧ (∀ j, 1 ≤ j ≤ GetNbinsX Sample.labelled_counts →
         GetBinLabel (fXaxis hist_2d) j
         = GetBinLabel (fXaxis Sample.labelled_counts) j)
    ∧ fXmin (fYaxis hist_2d) = 0%Qc
    ∧ fXmax (fYaxis hist_2d) = nat_to_Qc (S (length [None; Some Sample.short_counts])).
Proof.
  apply (create_2d_histogram_axes Sample.labelled_counts
           [None; Some Sample.short_counts] ["0.1 (L)"] "EventCutFlow").
  apply le_S, le_S, le_n.
Defined.

(** The sample grid of three rows: the labelled cut flow, a null entry, a
    histogram with two bins only (its third column reads its overflow
    cell, which is empty). *)
Example grid_rows_sample :
  ∃ hist_2d,
    Grid.create_2d_histogram
      (Some Sample.labelled_counts :: [None; Some Sample.short_counts])
      ["0.1 (L)"] "EventCutFlow"
    = ([], Return (Some hist_2d))
    ∧ (λ r, this <$> ((λ j, GetBinContent2 hist_2d j r) <$> [0; 1; 2; 3; 4]))
        <$> [0; 1; 2; 3; 4]
      = [[0; 0; 0; 0; 0]; [0; 40; 30; 20; 0]; [0; 0; 0; 0; 0]; [0; 8; 2; 0; 0];
         [0; 0; 0; 0; 0]]%Q
    ∧ GetBinLabel (fXaxis hist_2d) <$> [1; 2; 3] = ["AllEvents"; "Trigger"; ""]
    ∧ GetBinLabel (fYaxis hist_2d) <$> [1; 2; 3] = ["0.1 (L)"; ""; ""].
Proof. eexists. repeat split; vm_compute; reflexivity. Qed.

End GridMoreSamples.

(** ** More on the runs of the ratio builder *)

Section RatioRuns.
Import ROOT.

Variable py_float : string → option Qc.
Variables (fs : FS) (args : Ratio.Args).

(** A malformed [--y-range] stops the run before anything else happens:
    the one event is the error message; the plots directory is not created
    and no file is looked at. *)
Theorem ratio_main_stops_on_y_range :
  Ratio.y_range args ≠ "" →
  (∃ x, x ∈ PyStr.split "," (Ratio.y_range args) ∧ py_float x = None) →
  Ratio.main py_float fs args = ([Print ErrYRange], Exit 1%Z).
Proof.
  intros Hne Hbad.
  assert (Hparse : Ratio.parse_y_range py_float (Ratio.y_range args) = None)
    by (by apply parse_y_range_None).
  unfold Ratio.main. by rewrite Hparse.
Qed.



End RatioRuns.

Section RatioRunsSamples.
Import ROOT.

Lemma ratio_main_stops_on_y_range_witness :
  Ratio.main Sample.py_float Sample.fs_grid (Sample.ratio_args "1,x")
  = ([Print ErrYRange], Exit 1%Z).
Proof.
  apply (ratio_main_stops_on_y_range Sample.py_float Sample.fs_grid
           (Sample.ratio_args "1,x")).
  - discriminate.
  - exists "x". split; [|reflexivity]. apply list_elem_of_lookup. by exists 1.
Defined.


(** The events of the sample run, one by one. *)
Example ratio_main_trace_sample :
  trace (Ratio.main Sample.py_float Sample.fs_grid (Sample.ratio_args "1,0.1"))
  = [MakeDir "/eos/user/c/cthompso/analysis/CMSSW_15_0_16/src/plots";
     Print (InfoLoadingPair Sample.file Sample.file_light_10000mm "EventCutFlow");
     SaveAs "/eos/user/c/cthompso/analysis/CMSSW_15_0_16/src/plots/ratio_EventCutFlow_gluino1800_chi101300_0p1mm_vs_10000mm_lightDecay.pdf";
     Print (InfoSaved "/eos/user/c/cthompso/analysis/CMSSW_15_0_16/src/plots/ratio_EventCutFlow_gluino1800_chi101300_0p1mm_vs_10000mm_lightDecay.pdf");
     Print InfoRatioDone].
Proof. by vm_compute. Qed.

End RatioRunsSamples.

(** ** More on the runs of the grid builder *)

Section GridRuns.
Import ROOT.

Variables (fs : FS) (args : Grid.Args).

Lemma points_cons (d : string) (ds ctau_list : list string) :
  Grid.points (d :: ds) ctau_list
  = ((λ c, (d, c)) <$> ctau_list) ++ Grid.points ds ctau_list.
Proof.
  unfold Grid.points. rewrite bind_cons. f_equal.
Qed.

Lemma row_loads (d : string) (ctau_list : list string) :
  omap (Grid.try_load fs args d) ctau_list
  = omap (λ p, Grid.try_load fs args p.1 p.2) ((λ c, (d, c)) <$> ctau_list).
Proof.
  induction ctau_list as [|c cs IHc]; [done|]. simpl.
  destruct (Grid.try_load fs args d c); [f_equal|]; apply IHc.
Qed.

Lemma row_labels (d : string) (ctau_list : list string) :
  omap (λ c, (λ _ : TH1, Grid.make_label c d) <$> Grid.try_load fs args d c) ctau_list
  = (λ p, Grid.make_label p.2 p.1)
      <$> filter (λ p, is_Some (Grid.try_load fs args p.1 p.2))
                 ((λ c, (d, c)) <$> ctau_list).
Proof.
  induction ctau_list as [|c cs IHc]; [done|].
  rewrite fmap_cons. cbn [omap list_omap].
  destruct (Grid.try_load fs args d c) as [h|] eqn:Hload.
  - rewrite filter_cons_True by (simpl; rewrite Hload; by eexists).
    rewrite fmap_cons. simpl. f_equal. apply IHc.
  - rewrite filter_cons_False by (simpl; rewrite Hload; by intros [? ?]).
    simpl. apply IHc.
Qed.

Lemma points_loads (decay_types ctau_list : list string) :
  decay_types ≫= (λ d, omap (Grid.try_load fs args d) ctau_list)
  = omap (λ p, Grid.try_load fs args p.1 p.2) (Grid.points decay_types ctau_list).
Proof.
  induction decay_types as [|d ds IH]; [done|].
  by rewrite bind_cons, points_cons, omap_app, IH, row_loads.
Qed.

Lemma points_labels (decay_types ctau_list : list string) :
  decay_types
    ≫= (λ d, omap (λ c, (λ _ : TH1, Grid.make_label c d) <$> Grid.try_load fs args d c)
               ctau_list)
  = (λ p, Grid.make_label p.2 p.1)
      <$> filter (λ p, is_Some (Grid.try_load fs args p.1 p.2))
                 (Grid.points decay_types ctau_list).
Proof.
  induction decay_types as [|d ds IH]; [done|].
  by rewrite bind_cons, points_cons, filter_app, fmap_app, IH, row_labels.
Qed.

(** The loading loops visit the parameter points decay type by decay type
    and, within a decay type, in the order of the ctau list; they collect
    the histograms of the points that load and, in step with them, the
    labels of those same points: there are as many labels as histograms. *)
Theorem load_all_rows_and_labels (decay_types ctau_list : list string) :
  let loads := λ p : string * string, Grid.try_load fs args p.1 p.2 in
  let histograms := omap loads (Grid.points decay_types ctau_list) in
  let valid_labels :=
    (λ p, Grid.make_label p.2 p.1)
      <$> filter (λ p, is_Some (loads p)) (Grid.points decay_types ctau_list) in
  result (Grid.load_all fs args decay_types ctau_list)
  = Return (histograms, valid_labels)
  ∧ length histograms = length valid_labels.
Proof.
  intros loads histograms valid_labels. subst loads histograms valid_labels.
  rewrite load_all_spec. unfold result. cbn [snd].
  rewrite points_loads, points_labels. split; [done|].
  rewrite length_fmap.
  induction (Grid.points decay_types ctau_list) as [|p ps IH]; [done|].
  cbn [omap list_omap].
  destruct (Grid.try_load fs args p.1 p.2) as [h|] eqn:Hload.
  - rewrite filter_cons_True by (rewrite Hload; by eexists). simpl. f_equal. apply IH.
  - rewrite filter_cons_False by (rewrite Hload; by intros [? ?]). apply IH.
Qed.




End GridRuns.

(** ** The ctau list and the labels *)

Section Strings.

Lemma split_length (sep : ascii) (s : string) :
  length (PyStr.split sep s) = S (PyStr.count sep s).
Proof.
  induction s as [|c s IH]; [done|]. simpl.
  destruct (Ascii.eqb c sep); simpl; [by rewrite IH|].
  destruct (PyStr.split sep s) as [|w ws]; [done|]. exact IH.
Qed.

(** [parse_ctau_list] yields one entry more than its argument has commas:
    never an empty list, and an empty entry for an empty argument, for two
    commas in a row or for a comma at either end. *)
Theorem parse_ctau_list_length (ctau_string : string) :
  length (Grid.parse_ctau_list ctau_string) = S (PyStr.count "," ctau_string).
Proof. unfold Grid.parse_ctau_list. by rewrite length_map, split_length. Qed.






Example parse_ctau_list_default :
  Grid.parse_ctau_list "0p1mm,1mm,10mm,100mm,1000mm,10000mm"
  = ["0p1mm"; "1mm"; "10mm"; "100mm"; "1000mm"; "10000mm"]
  ∧ Grid.parse_ctau_list "" = [""]
  ∧ Grid.parse_ctau_list " 1mm ,,10mm," = ["1mm"; ""; "10mm"; ""].
Proof. by vm_compute. Qed.

Lemma replace_p_dot (s : string) :
  PyStr.replace "p" "." s = PyStr.map_chars PyStr.p_to_dot s.
Proof.
  unfold PyStr.replace. induction s as [|c s IH]; [done|].
  cbn [PyStr.replace_from PyStr.map_chars String.prefix String.length Nat.sub].
  destruct (ascii_dec "p" c) as [<-|Hne].
  - destruct s; cbn [String.prefix]; rewrite IH; reflexivity.
  - unfold PyStr.p_to_dot. rewrite (proj2 (Ascii.eqb_neq c "p")) by congruence.
    by rewrite IH.
Qed.

Lemma p_to_dot_m (c : ascii) : Ascii.eqb (PyStr.p_to_dot c) "m" = Ascii.eqb c "m".
Proof.
  unfold PyStr.p_to_dot. destruct (Ascii.eqb_spec c "p") as [->|Hne]; done.
Qed.

Lemma prefix_mm (s : string) :
  String.prefix "mm" s
  = match s with
    | String a (String b _) => Ascii.eqb a "m" && Ascii.eqb b "m"
    | _ => false
    end.
Proof.
  assert (Hd : ∀ (c : ascii) (x : bool),
            (if ascii_dec "m" c then x else false) = Ascii.eqb c "m" && x).
  { intros c x. destruct (ascii_dec "m" c) as [<-|Hne]; [done|].
    by rewrite (proj2 (Ascii.eqb_neq c "m")) by congruence. }
  destruct s as [|a [|b s]]; simpl; repeat rewrite Hd;
    rewrite ?andb_true_r, ?andb_false_r; try done.
  destruct s; simpl; by rewrite andb_true_r.
Qed.

Lemma prefix_mm_map (s : string) :
  String.prefix "mm" (PyStr.map_chars PyStr.p_to_dot s) = String.prefix "mm" s.
Proof.
  rewrite !prefix_mm. destruct s as [|a [|b s]]; cbn [PyStr.map_chars]; [done..|].
  by rewrite !p_to_dot_m.
Qed.

Lemma replace_mm_map (skip : nat) (s : string) :
  PyStr.replace_from "mm" "" skip (PyStr.map_chars PyStr.p_to_dot s)
  = PyStr.map_chars PyStr.p_to_dot (PyStr.replace_from "mm" "" skip s).
Proof.
  revert skip. induction s as [|c s IH]; intros skip; [done|].
  destruct skip as [|k].
  - change (PyStr.map_chars PyStr.p_to_dot (String c s))
      with (String (PyStr.p_to_dot c) (PyStr.map_chars PyStr.p_to_dot s)) at 1.
    cbn [PyStr.replace_from].
    change (String (PyStr.p_to_dot c) (PyStr.map_chars PyStr.p_to_dot s))
      with (PyStr.map_chars PyStr.p_to_dot (String c s)).
    rewrite prefix_mm_map. destruct (String.prefix "mm" (String c s)).
    + cbn. apply IH.
    + cbn. f_equal. apply IH.
  - cbn. apply IH.
Qed.

(** The two ways of writing the decay length agree: dots for [p] then no
    [mm] (the ratio builder) or no [mm] then dots for [p] (the grid
    builder). *)
Lemma display_agree (ctau : string) :
  PyStr.replace "mm" "" (PyStr.replace "p" "." ctau)
  = PyStr.replace "p" "." (PyStr.replace "mm" "" ctau).
Proof.
  rewrite !replace_p_dot. unfold PyStr.replace. apply replace_mm_map.
Qed.

(** The two utilities label a sample with the same decay-length text and
    the same channel letter (L for lightDecay, H for anything else): the
    ratio builder writes [c\tau = <text> mm (<letter>)], the grid builder
    [<text> (<letter>)]. *)
Theorem labels_agree (ctau decay_type : string) :
  ∃ ctau_display letter,
    Ratio.format_ctau_label ctau decay_type
    = "c\tau = " +:+ ctau_display +:+ " mm (" +:+ letter +:+ ")"
    ∧ Grid.make_label ctau decay_type = ctau_display +:+ " (" +:+ letter +:+ ")"
    ∧ letter = (if String.eqb decay_type "lightDecay" then "L" else "H").
Proof.
  unfold Ratio.format_ctau_label, Grid.make_label.
  exists (if String.eqb ctau "10000mm" then "10k"
          else if String.eqb ctau "1000mm" then "1k"
          else PyStr.replace "mm" "" (PyStr.replace "p" "." ctau)).
  exists (if String.eqb decay_type "lightDecay" then "L" else "H").
  split; [|split; [|done]].
  - destruct (String.eqb decay_type "lightDecay"); done.
  - rewrite <- display_agree.
    destruct (String.eqb_spec ctau "10000mm") as [->|_];
      [destruct (String.eqb decay_type _); by vm_compute|].
    destruct (String.eqb ctau "1000mm"); by destruct (String.eqb decay_type _).
Qed.

End Strings.
